(** * Bluetooth blood-pressure service: decoder, classifier, connection
      lifecycle and event hub

    A shallow embedding of [client/src/services/bluetoothBP.js] (class
    [BluetoothBPService]) and of [calculateHTNStatus] from the parser
    utilities, with the properties the specification states about them.

    Conventions of the embedding.
    - A JavaScript number is a [jsnum]: NaN, the two infinities, or a finite
      value kept as an exact rational (arithmetic reduces its results).
      The rounding of IEEE doubles and the sign of zero are outside the
      model.
    - A [DataView] is the list of its bytes; an out-of-bounds read throws a
      [RangeError], as the platform's [DataView] does.
    - A method that can throw returns an [outcome]. *)

From Stdlib Require Import ZArith QArith Qround Lqa Strings.Byte.
From stdpp Require Import base option list strings gmap.

Local Open Scope Z_scope.

(** ** Exceptions *)

Record jserror := JsError { ename : string; emsg : string }.

Definition Error (msg : string) : jserror := JsError "Error" msg.
Definition RangeError (msg : string) : jserror := JsError "RangeError" msg.
Definition TypeError (msg : string) : jserror := JsError "TypeError" msg.

Inductive outcome (A : Type) : Type :=
  | Returns (a : A)
  | Throws (e : jserror).
Arguments Returns {A} a.
Arguments Throws {A} e.

#[global] Instance outcome_ret : MRet outcome := fun A a => Returns a.
#[global] Instance outcome_bind : MBind outcome := fun A B f m =>
  match m with
  | Returns a => f a
  | Throws e => Throws e
  end.
#[global] Instance outcome_fmap : FMap outcome := fun A B f m =>
  match m with
  | Returns a => Returns (f a)
  | Throws e => Throws e
  end.

(** ** JavaScript numbers *)

Inductive jsnum : Type :=
  | JNaN
  | JInf
  | JNegInf
  | JFin (q : Q).

(** What [_parseSFLOAT] can return: a number or [null]. *)
Inductive jsval : Type :=
  | JNull
  | JNumber (n : jsnum).

(** [ToNumber]: [null] converts to [0]. *)
Definition toNumber (v : jsval) : jsnum :=
  match v with
  | JNull => JFin 0
  | JNumber n => n
  end.

Definition jsint (z : Z) : jsnum := JFin (inject_Z z).

(** Sign of a finite value: [-1], [0] or [1]. *)
Definition Qsgn (q : Q) : Z := Z.sgn (Qnum q).

(** Multiplication of numbers ([*]). *)
Definition js_mul (a b : jsnum) : jsnum :=
  match a, b with
  | JNaN, _ | _, JNaN => JNaN
  | JFin x, JFin y => JFin (Qred (x * y))
  | JFin x, JInf | JInf, JFin x =>
      match Qsgn x with 0 => JNaN | Zpos _ => JInf | Zneg _ => JNegInf end
  | JFin x, JNegInf | JNegInf, JFin x =>
      match Qsgn x with 0 => JNaN | Zpos _ => JNegInf | Zneg _ => JInf end
  | JInf, JInf | JNegInf, JNegInf => JInf
  | JInf, JNegInf | JNegInf, JInf => JNaN
  end.

(** [Math.pow(10, e)] for an integer [e]. *)
Definition Math_pow10 (e : Z) : jsnum := JFin (Qred (Qpower 10 e)).

(** [Math.round]: the nearest integer, a tie going up. *)
Definition Math_round (n : jsnum) : jsnum :=
  match n with
  | JFin q => jsint (Qfloor (q + (1 # 2))%Q)
  | other => other
  end.

(** [a >= b] on numbers; any comparison with NaN is false. *)
Definition js_ge (a b : jsnum) : bool :=
  match a, b with
  | JNaN, _ | _, JNaN => false
  | JInf, _ => true
  | _, JNegInf => true
  | JNegInf, _ => false
  | _, JInf => false
  | JFin x, JFin y => Qle_bool y x
  end.

(** [a < b] on numbers. *)
Definition js_lt (a b : jsnum) : bool :=
  match a, b with
  | JNaN, _ | _, JNaN => false
  | JInf, _ => false
  | _, JNegInf => false
  | JNegInf, _ => true
  | _, JInf => true
  | JFin x, JFin y => negb (Qle_bool y x)
  end.

(** ** DataView *)

Definition DataView := list byte.

Definition byteZ (b : byte) : Z := Z.of_N (Byte.to_N b).

Definition outOfBounds : jserror :=
  RangeError "Offset is outside the bounds of the DataView".

Definition getUint8 (dataView : DataView) (byteOffset : nat) : outcome Z :=
  match dataView !! byteOffset with
  | Some b => Returns (byteZ b)
  | None => Throws outOfBounds
  end.

(** [getUint16(byteOffset, true)]: little-endian. *)
Definition getUint16 (dataView : DataView) (byteOffset : nat) : outcome Z :=
  match dataView !! byteOffset, dataView !! S byteOffset with
  | Some lo, Some hi => Returns (byteZ lo + 256 * byteZ hi)
  | _, _ => Throws outOfBounds
  end.

(** [getInt16(byteOffset, true)]: the same two bytes read as a signed
    16-bit integer. *)
Definition getInt16 (dataView : DataView) (byteOffset : nat) : outcome Z :=
  u ← getUint16 dataView byteOffset;
  mret (if 0x8000 <=? u then u - 0x10000 else u).

(** ** IEEE 11073 SFLOAT *)

(** [value] is a signed 16-bit integer, so [&] and [>>] act on its two's
    complement: [Z.land] and the arithmetic [Z.shiftr]. *)
Definition sfloatOfInt16 (value : Z) : jsval :=
  if value =? 0x07FF then JNumber JNaN
  else if value =? 0x0800 then JNumber JNaN
  else if value =? 0x07FE then JNumber JInf
  else if value =? 0x0802 then JNumber JNegInf
  else if value =? 0x0801 then JNull
  else
    let mantissa := Z.land value 0x0FFF in
    let exponent := Z.shiftr value 12 in
    let exponent :=
      if 0x08 <=? exponent then - ((0x0F - exponent) + 1) else exponent in
    let mantissaValue :=
      if 0x0800 <=? mantissa then - (0x1000 - mantissa) else mantissa in
    JNumber (js_mul (jsint mantissaValue) (Math_pow10 exponent)).

Definition _parseSFLOAT (dataView : DataView) (offset : nat) : outcome jsval :=
  value ← getInt16 dataView offset;
  mret (sfloatOfInt16 value).

(** The 16-bit word stored little-endian in two bytes. *)
Definition word16 (lo hi : byte) : Z := byteZ lo + 256 * byteZ hi.

(** The reading of a word the specification gives: low 12 bits and high
    4 bits, each in two's complement. *)
Definition spec_mantissa (w : Z) : Z :=
  let mantissa := w mod 0x1000 in
  if 0x0800 <=? mantissa then mantissa - 0x1000 else mantissa.

Definition spec_exponent (w : Z) : Z :=
  let exponent := w / 0x1000 in
  if 0x08 <=? exponent then - ((0x0F - exponent) + 1) else exponent.

Definition reserved (w : Z) : bool :=
  (w =? 0x07FF) || (w =? 0x0800) || (w =? 0x07FE) || (w =? 0x0802)
  || (w =? 0x0801).

(** The signed reading of a 16-bit word, as [getInt16] gives it. *)
Definition int16 (w : Z) : Z := if 0x8000 <=? w then w - 0x10000 else w.

(** ** The measurement record *)

(** The arguments of [new Date(year, month - 1, day, hours, minutes,
    seconds)]: a device-local date. *)
Record JsDate := mkDate {
  dateYear : Z; dateMonthIndex : Z; dateDay : Z;
  dateHours : Z; dateMinutes : Z; dateSeconds : Z }.

Record MeasurementStatus := mkStatus {
  bodyMovementDetected : bool;
  cuffFitError : bool;
  irregularPulseDetected : bool;
  pulseRateOutOfRange : bool;
  measurementPositionImproper : bool }.

(** The object [_parseMeasurement] builds.  The first five properties are
    always set; the last four exist only when the parser assigns them. *)
Record Measurement := mkMeasurement {
  systolic : jsval;
  diastolic : jsval;
  meanArterialPressure : jsval;
  originalUnit : string;
  timestamp : Z;
  deviceTimestamp : option JsDate;
  heartRate : option jsnum;
  userId : option Z;
  status : option MeasurementStatus }.

Definition set_deviceTimestamp (d : JsDate) (m : Measurement) : Measurement :=
  mkMeasurement (systolic m) (diastolic m) (meanArterialPressure m)
    (originalUnit m) (timestamp m) (Some d) (heartRate m) (userId m) (status m).

Definition set_heartRate (h : jsnum) (m : Measurement) : Measurement :=
  mkMeasurement (systolic m) (diastolic m) (meanArterialPressure m)
    (originalUnit m) (timestamp m) (deviceTimestamp m) (Some h) (userId m)
    (status m).

Definition set_userId (u : Z) (m : Measurement) : Measurement :=
  mkMeasurement (systolic m) (diastolic m) (meanArterialPressure m)
    (originalUnit m) (timestamp m) (deviceTimestamp m) (heartRate m) (Some u)
    (status m).

Definition set_status (s : MeasurementStatus) (m : Measurement) : Measurement :=
  mkMeasurement (systolic m) (diastolic m) (meanArterialPressure m)
    (originalUnit m) (timestamp m) (deviceTimestamp m) (heartRate m) (userId m)
    (Some s).

(** [(flags & mask) === mask] *)
Definition hasBits (flags mask : Z) : bool := Z.land flags mask =? mask.

Definition _parseMeasurementStatus (statusFlags : Z) : MeasurementStatus :=
  {| bodyMovementDetected := hasBits statusFlags 0x01;
     cuffFitError := hasBits statusFlags 0x02;
     irregularPulseDetected := hasBits statusFlags 0x04;
     pulseRateOutOfRange := hasBits statusFlags 0x08;
     measurementPositionImproper := hasBits statusFlags 0x10 |}.

(** 1 kPa = 7.50062 mmHg *)
Definition kPaFactor : jsnum := JFin (750062 # 100000).

(** [isKPa ? Math.round(x * 7.50062) : x] *)
Definition convertPressure (isKPa : bool) (x : jsval) : jsval :=
  if isKPa then JNumber (Math_round (js_mul (toNumber x) kPaFactor)) else x.

(** ** The measurement record parser *)

(** [_parseMeasurement], returning next to the measurement the value the
    local cursor [index] has when the method returns.  [now] is what
    [new Date()] reads from the host clock. *)
Definition parseMeasurementCursor (now : Z) (dataView : DataView)
    : outcome (Measurement * nat) :=
  let index := 0%nat in
  flags ← getUint8 dataView index;
  let index := S index in
  let isKPa := hasBits flags 0x01 in
  let unit := if isKPa then "kPa" else "mmHg" in
  systolic ← _parseSFLOAT dataView index;
  let index := (index + 2)%nat in
  diastolic ← _parseSFLOAT dataView index;
  let index := (index + 2)%nat in
  meanArterialPressure ← _parseSFLOAT dataView index;
  let index := (index + 2)%nat in
  let convertedSystolic := convertPressure isKPa systolic in
  let convertedDiastolic := convertPressure isKPa diastolic in
  let convertedMAP := convertPressure isKPa meanArterialPressure in
  let measurement :=
    {| systolic := convertedSystolic;
       diastolic := convertedDiastolic;
       meanArterialPressure := convertedMAP;
       originalUnit := unit;
       timestamp := now;
       deviceTimestamp := None; heartRate := None;
       userId := None; status := None |} in
  '(measurement, index) ←
    (if hasBits flags 0x02 then
       year ← getUint16 dataView index;
       month ← getUint8 dataView (index + 2);
       day ← getUint8 dataView (index + 3);
       hours ← getUint8 dataView (index + 4);
       minutes ← getUint8 dataView (index + 5);
       seconds ← getUint8 dataView (index + 6);
       mret (set_deviceTimestamp
               (mkDate year (month - 1) day hours minutes seconds) measurement,
             (index + 7)%nat)
     else mret (measurement, index));
  '(measurement, index) ←
    (if hasBits flags 0x04 then
       pulseRate ← _parseSFLOAT dataView index;
       mret (set_heartRate (Math_round (toNumber pulseRate)) measurement,
             (index + 2)%nat)
     else mret (measurement, index));
  '(measurement, index) ←
    (if hasBits flags 0x08 then
       u ← getUint8 dataView index;
       mret (set_userId u measurement, S index)
     else mret (measurement, index));
  '(measurement, index) ←
    (if hasBits flags 0x10 then
       statusFlags ← getUint16 dataView index;
       mret (set_status (_parseMeasurementStatus statusFlags) measurement,
             (index + 2)%nat)
     else mret (measurement, index));
  mret (measurement, index).

Definition _parseMeasurement (now : Z) (dataView : DataView)
    : outcome Measurement :=
  r ← parseMeasurementCursor now dataView;
  mret r.1.

(** The number of bytes a flags byte announces: the flags byte, three
    SFLOAT pressures, and the optional fields of bits 1 to 4. *)
Definition recordLength (flags : Z) : nat :=
  7 + (if Z.testbit flags 1 then 7 else 0) + (if Z.testbit flags 2 then 2 else 0)
    + (if Z.testbit flags 3 then 1 else 0) + (if Z.testbit flags 4 then 2 else 0).

(** ** Readings used by the unit tests *)

Definition buffer_mmHg : DataView :=
  [x00; xb0; xf4; x20; xf3; xa2; xf3].
Definition buffer_kPa : DataView :=
  [x01; xa0; xf0; x6b; xf0; x7c; xf0].
Definition buffer_pulse : DataView :=
  [x04; xb0; xf4; x20; xf3; xa2; xf3; xbc; xf2].
Definition buffer_timestamp : DataView :=
  [x02; xb0; xf4; x20; xf3; xa2; xf3; xe9; x07; x08; x1b; x0e; x1e; x2d].
Definition buffer_status : DataView :=
  [x10; xb0; xf4; x20; xf3; xa2; xf3; x07; x00].

(** ** The clinical classifier *)

(** [x >= k] and [x < k] for a value [x] and an integer literal [k]. *)
Definition geLit (x : jsval) (k : Z) : bool := js_ge (toNumber x) (jsint k).
Definition ltLit (x : jsval) (k : Z) : bool := js_lt (toNumber x) (jsint k).

Definition calculateHTNStatus (systolic diastolic : jsval) : string :=
  if geLit systolic 180 || geLit diastolic 120 then "Crisis"
  else if geLit systolic 140 || geLit diastolic 90 then "Stage 2"
  else if geLit systolic 130 || geLit diastolic 80 then "Stage 1"
  else if geLit systolic 120 && ltLit diastolic 80 then "Elevated"
  else "Normal".

(** The threshold table of the specification, one rule per row. *)
Definition crisisRule (s d : jsval) : Prop := geLit s 180 = true \/ geLit d 120 = true.
Definition stage2Rule (s d : jsval) : Prop := geLit s 140 = true \/ geLit d 90 = true.
Definition stage1Rule (s d : jsval) : Prop := geLit s 130 = true \/ geLit d 80 = true.
Definition elevatedRule (s d : jsval) : Prop := geLit s 120 = true /\ ltLit d 80 = true.

(** The table read in priority order: a row applies when its rule holds
    and no earlier rule does. *)
Inductive classified (s d : jsval) : string -> Prop :=
  | classCrisis : crisisRule s d -> classified s d "Crisis"
  | classStage2 : ~ crisisRule s d -> stage2Rule s d -> classified s d "Stage 2"
  | classStage1 :
      ~ crisisRule s d -> ~ stage2Rule s d -> stage1Rule s d ->
      classified s d "Stage 1"
  | classElevated :
      ~ crisisRule s d -> ~ stage2Rule s d -> ~ stage1Rule s d ->
      elevatedRule s d -> classified s d "Elevated"
  | classNormal :
      ~ crisisRule s d -> ~ stage2Rule s d -> ~ stage1Rule s d ->
      ~ elevatedRule s d -> classified s d "Normal".

Definition reading (z : Z) : jsval := JNumber (jsint z).

(** ** The Bluetooth transport *)

(** A UUID as the code passes it: a name or a 16-bit number. *)
Inductive uuid : Type :=
  | UuidName (name : string)
  | UuidNumber (n : Z).

#[global] Instance uuid_eq_dec : EqDecision uuid.
Proof. solve_decision. Defined.

Record BluetoothDevice := mkDevice {
  deviceName : option string;
  deviceId : string }.

Inductive GATTServer : Type := ServerHandle (n : nat).
Inductive GATTService : Type := ServiceHandle (n : nat).

(** A characteristic with its [properties] and the device reached through
    [characteristic.service.device]. *)
Record GATTCharacteristic := mkCharacteristic {
  charHandle : nat;
  propIndicate : bool;
  propNotify : bool;
  propRead : bool;
  charDevice : BluetoothDevice }.

(** A listener is known by the identity of its function object. *)
Definition callback := nat.

Inductive payload : Type :=
  | MeasurementData (m : Measurement)
  | DisconnectedData (unexpected : bool).

(** The platform the service runs on.  [W] is the state of everything
    outside the service object: the browser, the radio, the device and the
    bodies of the registered callbacks.  Every asynchronous call either
    resolves or rejects and may change that state; [gattConnected] reads
    [device.gatt.connected].

    A callback is run by [runCallback]: it returns or throws and may change
    the outside state.  Callbacks that call back into the service while a
    dispatch is running are not part of this model. *)
Record Transport (W : Type) := mkTransport {
  hasBluetooth : W -> bool;
  clock : W -> Z;
  requestDevice : W -> outcome BluetoothDevice * W;
  gattConnected : BluetoothDevice -> W -> bool;
  gattConnect : BluetoothDevice -> W -> outcome GATTServer * W;
  getPrimaryService : GATTServer -> uuid -> W -> outcome GATTService * W;
  getCharacteristic : GATTService -> uuid -> W -> outcome GATTCharacteristic * W;
  startNotifications : GATTCharacteristic -> W -> outcome unit * W;
  stopNotifications : GATTCharacteristic -> W -> outcome unit * W;
  readValue : GATTCharacteristic -> W -> outcome DataView * W;
  gattDisconnect : BluetoothDevice -> W -> outcome unit * W;
  runCallback : callback -> payload -> W -> outcome unit * W }.
Arguments hasBluetooth {W}.
Arguments clock {W}.
Arguments requestDevice {W}.
Arguments gattConnected {W}.
Arguments gattConnect {W}.
Arguments getPrimaryService {W}.
Arguments getCharacteristic {W}.
Arguments startNotifications {W}.
Arguments stopNotifications {W}.
Arguments readValue {W}.
Arguments gattDisconnect {W}.
Arguments runCallback {W}.

(** What an operation leaves behind for an observer: the calls made on the
    transport with their result, the console lines, and the listener
    invocations. *)
Inductive call : Type :=
  | RequestDevice
  | AddDisconnectListener
  | GattConnect
  | GetPrimaryService (u : uuid)
  | GetCharacteristic (u : uuid)
  | AddValueListener
  | StartNotifications
  | StopNotifications
  | ReadValue
  | GattDisconnect.

Inductive level : Type := LogLevel | WarnLevel | ErrorLevel.

Inductive entry : Type :=
  | Call (c : call) (rejected : option jserror)
  | Console (l : level) (msg : string)
  | Invoked (cb : callback) (data : payload).

(** ** The service object *)

Record BluetoothBPService := mkService {
  device : option BluetoothDevice;
  server : option GATTServer;
  service : option GATTService;
  measurementCharacteristic : option GATTCharacteristic;
  listeners : gmap string (list callback) }.

Definition BP_SERVICE_UUID : uuid := UuidName "blood_pressure".
Definition BP_MEASUREMENT_UUID : uuid := UuidNumber 0x2A35.
Definition BP_FEATURE_UUID : uuid := UuidNumber 0x2A49.
Definition OMRON_CUSTOM_SERVICE_UUID : uuid := UuidNumber 0xFE4A.

(** [new BluetoothBPService()] *)
Definition constructor : BluetoothBPService :=
  mkService None None None None ∅.

(** A [Set] of callbacks keeps insertion order and holds each callback
    once. *)
Definition setAdd (cb : callback) (s : list callback) : list callback :=
  if decide (cb ∈ s) then s else s ++ [cb].

Definition setDelete (cb : callback) (s : list callback) : list callback :=
  filter (λ c, c ≠ cb) s.

Definition withListeners (l : gmap string (list callback))
    (this : BluetoothBPService) : BluetoothBPService :=
  mkService (device this) (server this) (service this)
    (measurementCharacteristic this) l.

Definition addEventListener (event : string) (cb : callback)
    (this : BluetoothBPService) : BluetoothBPService :=
  let l := listeners this in
  let l := if decide (is_Some (l !! event)) then l else <[event := []]> l in
  withListeners (<[event := setAdd cb (default [] (l !! event))]> l) this.

Definition removeEventListener (event : string) (cb : callback)
    (this : BluetoothBPService) : BluetoothBPService :=
  match listeners this !! event with
  | Some s => withListeners (<[event := setDelete cb s]> (listeners this)) this
  | None => this
  end.

Definition _cleanup (this : BluetoothBPService) : BluetoothBPService :=
  mkService None None None None (listeners this).

Record DeviceInfo := mkInfo {
  infoName : string;
  infoId : string;
  infoConnected : bool }.

(** [name || 'Unknown Device'] *)
Definition nameOrUnknown (name : option string) : string :=
  match name with
  | Some n => if decide (n = EmptyString) then "Unknown Device" else n
  | None => "Unknown Device"
  end.

Record Features := mkFeatures {
  bodyMovementDetection : bool;
  cuffFitDetection : bool;
  irregularPulseDetection : bool;
  pulseRateRangeDetection : bool;
  measurementPositionDetection : bool;
  multipleUserSupport : bool;
  multipleStorageSupport : bool }.

Definition _parseFeatures (dataView : DataView) : outcome Features :=
  flags ← getUint16 dataView 0;
  mret {| bodyMovementDetection := hasBits flags 0x01;
          cuffFitDetection := hasBits flags 0x02;
          irregularPulseDetection := hasBits flags 0x04;
          pulseRateRangeDetection := hasBits flags 0x08;
          measurementPositionDetection := hasBits flags 0x10;
          multipleUserSupport := hasBits flags 0x20;
          multipleStorageSupport := hasBits flags 0x40 |}.

(** ** Methods of the service

    A method runs on the service object and the outside state; it returns
    or throws, leaves both states changed, and leaves a trace.  [await] is
    sequencing: one operation is outstanding at a time. *)

Definition M (W A : Type) : Type :=
  BluetoothBPService * W -> outcome A * (BluetoothBPService * W) * list entry.

Definition ret {W A} (a : A) : M W A := λ s, (Returns a, s, []).

Definition throw {W A} (e : jserror) : M W A := λ s, (Throws e, s, []).

Definition bind {W A B} (m : M W A) (f : A -> M W B) : M W B := λ s,
  match m s with
  | (Returns a, s1, t1) =>
      match f a s1 with (r, s2, t2) => (r, s2, t1 ++ t2) end
  | (Throws e, s1, t1) => (Throws e, s1, t1)
  end.

(** [try { m } catch (error) { h error }] *)
Definition tryCatch {W A} (m : M W A) (h : jserror -> M W A) : M W A := λ s,
  match m s with
  | (Returns a, s1, t1) => (Returns a, s1, t1)
  | (Throws e, s1, t1) =>
      match h e s1 with (r, s2, t2) => (r, s2, t1 ++ t2) end
  end.

Notation "x <- m ;; k" := (bind m (λ x, k))
  (at level 90, m at level 60, right associativity).
Notation "m ;;; k" := (bind m (λ _, k))
  (at level 90, right associativity).

Definition getThis {W} : M W BluetoothBPService := λ s, (Returns s.1, s, []).

Definition modify {W} (f : BluetoothBPService -> BluetoothBPService) : M W unit :=
  λ s, (Returns (), (f s.1, s.2), []).

Definition readWorld {W A} (f : W -> A) : M W A := λ s, (Returns (f s.2), s, []).

Definition emit {W} (e : entry) : M W unit := λ s, (Returns (), s, [e]).

Definition console {W} (l : level) (msg : string) : M W unit :=
  emit (Console l msg).

Definition rejection {A} (r : outcome A) : option jserror :=
  match r with
  | Returns _ => None
  | Throws e => Some e
  end.

(** A call on the transport, awaited. *)
Definition perform {W A} (c : call) (op : W -> outcome A * W) : M W A := λ s,
  match op s.2 with
  | (r, w) => (r, (s.1, w), [Call c (rejection r)])
  end.

Definition liftOutcome {W A} (r : outcome A) : M W A := λ s, (r, s, []).

(** Reading a property of [x] when [x] may be [null]. *)
Definition deref {W A} (x : option A) : M W A :=
  match x with
  | Some a => ret a
  | None => throw (TypeError "Cannot read properties of null")
  end.

Fixpoint forEach {W} (s : list callback) (f : callback -> M W unit) : M W unit :=
  match s with
  | [] => ret ()
  | cb :: rest => f cb ;;; forEach rest f
  end.

Definition set_device (d : option BluetoothDevice) (this : BluetoothBPService) :=
  mkService d (server this) (service this) (measurementCharacteristic this)
    (listeners this).
Definition set_server (x : option GATTServer) (this : BluetoothBPService) :=
  mkService (device this) x (service this) (measurementCharacteristic this)
    (listeners this).
Definition set_service (x : option GATTService) (this : BluetoothBPService) :=
  mkService (device this) (server this) x (measurementCharacteristic this)
    (listeners this).
Definition set_measurementCharacteristic (x : option GATTCharacteristic)
    (this : BluetoothBPService) :=
  mkService (device this) (server this) (service this) x (listeners this).

Inductive featuresResult : Type :=
  | FeaturesValue (f : Features)
  | FeaturesUndefined
  | FeaturesNull.

Section Service.
Context {W : Type} (tr : Transport W).

(** [callback(data)] *)
Definition invoke (cb : callback) (data : payload) : M W unit := λ s,
  match runCallback tr cb data s.2 with
  | (r, w) => (r, (s.1, w), [Invoked cb data])
  end.

Definition listenerError (event : string) : string :=
  "Error in " +:+ event +:+ " listener:".

Definition _notifyListeners (event : string) (data : payload) : M W unit :=
  this <- getThis ;;
  match listeners this !! event with
  | Some s =>
      forEach s (λ cb,
        tryCatch (invoke cb data)
          (λ error, console ErrorLevel (listenerError event)))
  | None => ret ()
  end.

Definition _startNotifications : M W unit :=
  this <- getThis ;;
  match measurementCharacteristic this with
  | None => throw (Error "Measurement characteristic not available")
  | Some c =>
      if propIndicate c || propNotify c then
        emit (Call AddValueListener None) ;;;
        perform StartNotifications (startNotifications tr c) ;;;
        console LogLevel "Started BP measurement notifications"
      else throw (Error "Device does not support notifications/indications")
  end.

Definition _readFeatures : M W featuresResult :=
  tryCatch
    (this <- getThis ;;
     svc <- deref (service this) ;;
     featureChar <-
       perform (GetCharacteristic BP_FEATURE_UUID)
         (getCharacteristic tr svc BP_FEATURE_UUID) ;;
     if propRead featureChar then
       value <- perform ReadValue (readValue tr featureChar) ;;
       features <- liftOutcome (_parseFeatures value) ;;
       console LogLevel "BP Device Features:" ;;;
       ret (FeaturesValue features)
     else ret FeaturesUndefined)
    (λ error,
       console LogLevel "BP Feature characteristic not available" ;;;
       ret FeaturesNull).

(** The [try] block of [connectToDevice]. *)
Definition connectAttempt : M W DeviceInfo :=
  d <- perform RequestDevice (requestDevice tr) ;;
  modify (set_device (Some d)) ;;;
  this <- getThis ;;
  d <- deref (device this) ;;
  emit (Call AddDisconnectListener None) ;;;
  this <- getThis ;;
  d <- deref (device this) ;;
  srv <- perform GattConnect (gattConnect tr d) ;;
  modify (set_server (Some srv)) ;;;
  console LogLevel "Connected to GATT Server" ;;;
  tryCatch
    (this <- getThis ;;
     srv <- deref (server this) ;;
     svc <-
       perform (GetPrimaryService BP_SERVICE_UUID)
         (getPrimaryService tr srv BP_SERVICE_UUID) ;;
     modify (set_service (Some svc)) ;;;
     console LogLevel "Using standard Blood Pressure Service")
    (λ error,
       console LogLevel
         "Standard BP service not found, trying Omron custom service" ;;;
       this <- getThis ;;
       srv <- deref (server this) ;;
       svc <-
         perform (GetPrimaryService OMRON_CUSTOM_SERVICE_UUID)
           (getPrimaryService tr srv OMRON_CUSTOM_SERVICE_UUID) ;;
       modify (set_service (Some svc)) ;;;
       console LogLevel "Using Omron custom service") ;;;
  this <- getThis ;;
  svc <- deref (service this) ;;
  c <-
    perform (GetCharacteristic BP_MEASUREMENT_UUID)
      (getCharacteristic tr svc BP_MEASUREMENT_UUID) ;;
  modify (set_measurementCharacteristic (Some c)) ;;;
  _startNotifications ;;;
  _readFeatures ;;;
  this <- getThis ;;
  d <- deref (device this) ;;
  ret {| infoName := nameOrUnknown (deviceName d);
         infoId := deviceId d;
         infoConnected := true |}.

Definition notSupported : jserror :=
  Error "Web Bluetooth is not supported in this browser".

(** [navigator.bluetooth !== undefined] *)
Definition isSupported : M W bool := readWorld (hasBluetooth tr).

Definition connectToDevice : M W DeviceInfo :=
  supported <- isSupported ;;
  if negb supported then throw notSupported
  else
    tryCatch connectAttempt
      (λ error,
         console ErrorLevel "Connection failed:" ;;;
         modify _cleanup ;;;
         throw error).

(** [event.target.value] is the [DataView] of the notification. *)
Definition _handleMeasurement (value : DataView) : M W unit :=
  now <- readWorld (clock tr) ;;
  measurement <- liftOutcome (_parseMeasurement now value) ;;
  console LogLevel "Blood Pressure Measurement:" ;;;
  _notifyListeners "measurement" (MeasurementData measurement).

Definition disconnect : M W unit :=
  this <- getThis ;;
  match measurementCharacteristic this with
  | Some c =>
      connected <- readWorld (gattConnected tr (charDevice c)) ;;
      if connected then
        tryCatch (perform StopNotifications (stopNotifications tr c))
          (λ error, console WarnLevel "Error stopping notifications:")
      else ret ()
  | None => ret ()
  end ;;;
  this <- getThis ;;
  match device this with
  | Some d =>
      connected <- readWorld (gattConnected tr d) ;;
      if connected then
        perform GattDisconnect (gattDisconnect tr d) ;;;
        console LogLevel "Disconnected from device"
      else ret ()
  | None => ret ()
  end ;;;
  modify _cleanup.

(** The handler of the device's [gattserverdisconnected] event. *)
Definition _handleDisconnection : M W unit :=
  console LogLevel "Device disconnected unexpectedly" ;;;
  modify _cleanup ;;;
  _notifyListeners "disconnected" (DisconnectedData true).

Definition isConnected (s : BluetoothBPService * W) : bool :=
  match device s.1 with
  | Some d => gattConnected tr d s.2
  | None => false
  end.

Definition getDeviceInfo (s : BluetoothBPService * W) : option DeviceInfo :=
  match device s.1 with
  | Some d =>
      Some {| infoName := nameOrUnknown (deviceName d);
              infoId := deviceId d;
              infoConnected := isConnected s |}
  | None => None
  end.
End Service.

(** ** A scripted transport, for running the methods on concrete cases *)

(** Which calls reject and which callbacks throw.  The outside state is the
    value of [device.gatt.connected]. *)
Record Script := mkScript {
  noBluetooth : bool;
  rejectRequest : bool;
  rejectConnect : bool;
  rejectStandard : bool;
  rejectVendor : bool;
  rejectCharacteristic : bool;
  rejectStart : bool;
  rejectStop : bool;
  rejectDisconnect : bool;
  throwing : list callback }.

Definition testDevice : BluetoothDevice :=
  mkDevice (Some "Test BP Monitor") "test-device-id".

Definition testCharacteristic : GATTCharacteristic :=
  mkCharacteristic 0 true true false testDevice.

Definition settle {A} (reject : bool) (msg : string) (a : A) (w : bool)
    : outcome A * bool :=
  if reject then (Throws (Error msg), w) else (Returns a, w).

Definition scripted (sc : Script) : Transport bool :=
  {| hasBluetooth := λ _, negb (noBluetooth sc);
     clock := λ _, 0;
     requestDevice := settle (rejectRequest sc) "User cancelled" testDevice;
     gattConnected := λ _ w, w;
     gattConnect := λ _ w,
       if rejectConnect sc then (Throws (Error "GATT error"), w)
       else (Returns (ServerHandle 0), true);
     getPrimaryService := λ _ u,
       match u with
       | UuidName _ => settle (rejectStandard sc) "Service not found" (ServiceHandle 0)
       | UuidNumber _ => settle (rejectVendor sc) "Service not found" (ServiceHandle 1)
       end;
     getCharacteristic := λ _ u,
       if decide (u = BP_MEASUREMENT_UUID)
       then settle (rejectCharacteristic sc) "Characteristic not found" testCharacteristic
       else settle true "Characteristic not found" testCharacteristic;
     startNotifications := λ _, settle (rejectStart sc) "Failed to start" ();
     stopNotifications := λ _, settle (rejectStop sc) "Failed to stop" ();
     readValue := λ _, settle false "Read failed" [];
     gattDisconnect := λ _ w,
       if rejectDisconnect sc then (Throws (Error "Disconnect failed"), w)
       else (Returns (), false);
     runCallback := λ cb _,
       settle (bool_decide (cb ∈ throwing sc)) "Listener error" () |}.

(** The measurement of the unit tests: 120/80, mean 93. *)
Definition testMeasurement : Measurement :=
  mkMeasurement (reading 120) (reading 80) (reading 93) "mmHg" 0
    None None None None.

(** Two listeners. *)
Definition listenerA : callback := 1%nat.
Definition listenerB : callback := 2%nat.

(** Every call resolves and no callback throws. *)
Definition smooth : Script :=
  mkScript false false false false false false false false false [].

(** A service connected to [testDevice], as [connectToDevice] leaves it. *)
Definition connectedService (l : gmap string (list callback))
    : BluetoothBPService :=
  mkService (Some testDevice) (Some (ServerHandle 0)) (Some (ServiceHandle 0))
    (Some testCharacteristic) l.

(** Offsets of the optional fields, from the flag bits before them. *)
Definition pulseOffset (flags : Z) : nat :=
  7 + (if Z.testbit flags 1 then 7 else 0).
Definition userIdOffset (flags : Z) : nat :=
  pulseOffset flags + (if Z.testbit flags 2 then 2 else 0).
Definition statusOffset (flags : Z) : nat :=
  userIdOffset flags + (if Z.testbit flags 3 then 1 else 0).

(** A buffer too short for its own flags byte, or with no flags byte. *)
Definition tooShort (dataView : DataView) : Prop :=
  match dataView with
  | [] => True
  | fb :: _ => (length dataView < recordLength (byteZ fb))%nat
  end.

(** What the parser does with a buffer whose first byte is [fb], in terms
    of the flag bits: the cursor, the fields that exist, where each field
    is read, and the unit handling. *)
Record parsedAs (now : Z) (dataView : DataView) (fb : byte) (m : Measurement)
    : Prop := mkParsedAs {
  pa_cursor :
    parseMeasurementCursor now dataView = Returns (m, recordLength (byteZ fb));
  pa_exact :
    _parseMeasurement now (take (recordLength (byteZ fb)) dataView) = Returns m;
  pa_timestamp_iff : is_Some (deviceTimestamp m) <-> Z.testbit (byteZ fb) 1 = true;
  pa_heartRate_iff : is_Some (heartRate m) <-> Z.testbit (byteZ fb) 2 = true;
  pa_userId_iff : is_Some (userId m) <-> Z.testbit (byteZ fb) 3 = true;
  pa_status_iff : is_Some (status m) <-> Z.testbit (byteZ fb) 4 = true;
  pa_pressures :
    exists s d p,
      _parseSFLOAT dataView 1 = Returns s
      /\ _parseSFLOAT dataView 3 = Returns d
      /\ _parseSFLOAT dataView 5 = Returns p
      /\ systolic m = convertPressure (Z.testbit (byteZ fb) 0) s
      /\ diastolic m = convertPressure (Z.testbit (byteZ fb) 0) d
      /\ meanArterialPressure m = convertPressure (Z.testbit (byteZ fb) 0) p;
  pa_unit :
    originalUnit m = if Z.testbit (byteZ fb) 0 then "kPa" else "mmHg";
  pa_timestamp :
    Z.testbit (byteZ fb) 1 = true ->
    exists year month day hours minutes seconds,
      getUint16 dataView 7 = Returns year
      /\ getUint8 dataView 9 = Returns month
      /\ getUint8 dataView 10 = Returns day
      /\ getUint8 dataView 11 = Returns hours
      /\ getUint8 dataView 12 = Returns minutes
      /\ getUint8 dataView 13 = Returns seconds
      /\ deviceTimestamp m =
         Some (mkDate year (month - 1) day hours minutes seconds);
  pa_heartRate :
    Z.testbit (byteZ fb) 2 = true ->
    exists pulseRate,
      _parseSFLOAT dataView (pulseOffset (byteZ fb)) = Returns pulseRate
      /\ heartRate m = Some (Math_round (toNumber pulseRate));
  pa_userId :
    Z.testbit (byteZ fb) 3 = true ->
    exists u,
      getUint8 dataView (userIdOffset (byteZ fb)) = Returns u
      /\ userId m = Some u;
  pa_status :
    Z.testbit (byteZ fb) 4 = true ->
    exists statusFlags,
      getUint16 dataView (statusOffset (byteZ fb)) = Returns statusFlags
      /\ status m = Some (_parseMeasurementStatus statusFlags) }.

(** ** The unit conversion, as specified *)

(** Pressure in kPa to mmHg, as the specification words it: multiply by
    7.50062 and round to the nearest integer. *)
Definition toMmHg (v : jsval) : jsval :=
  JNumber (Math_round (js_mul (toNumber v) kPaFactor)).

(** A kPa reading with a pulse of 70 bpm: flags 0x05. *)
Definition buffer_kPa_pulse : DataView :=
  [x05; xa0; xf0; x6b; xf0; x7c; xf0; xbc; xf2].

(** ** Reading traces *)

(** The results of the [getPrimaryService(u)] calls in a trace, in order. *)
Fixpoint lookups (u : uuid) (t : list entry) : list (option jserror) :=
  match t with
  | [] => []
  | Call (GetPrimaryService u') r :: rest =>
      if decide (u' = u) then r :: lookups u rest else lookups u rest
  | _ :: rest => lookups u rest
  end.

(** The references of a disconnected service. *)
Definition cleared (this : BluetoothBPService) : Prop :=
  device this = None /\ server this = None /\ service this = None
  /\ measurementCharacteristic this = None.

(** The listener invocations of a trace, in order. *)
Fixpoint invocations (t : list entry) : list (callback * payload) :=
  match t with
  | [] => []
  | Invoked cb data :: rest => (cb, data) :: invocations rest
  | _ :: rest => invocations rest
  end.

(** What one callback leaves in the trace of a dispatch: its invocation,
    and the console line of the [catch] when it threw. *)
Definition delivery (event : string) (data : payload) (cb : callback)
    (result : outcome unit) : list entry :=
  Invoked cb data ::
  match result with
  | Returns _ => []
  | Throws _ => [Console ErrorLevel (listenerError event)]
  end.

(** The callbacks of a list run one after the other, each on the outside
    state the previous one left: their results and the state at the end. *)
Fixpoint runAll {W} (tr : Transport W) (data : payload) (cbs : list callback)
    (w : W) : list (outcome unit) * W :=
  match cbs with
  | [] => ([], w)
  | cb :: rest =>
      match runCallback tr cb data w with
      | (r, w1) =>
          match runAll tr data rest w1 with
          | (rs, w') => (r :: rs, w')
          end
      end
  end.

(** Subscriptions and cancellations, as a client issues them. *)
Inductive hubOp : Type :=
  | Subscribe (event : string) (cb : callback)
  | Unsubscribe (event : string) (cb : callback).

Definition applyOp (this : BluetoothBPService) (op : hubOp) : BluetoothBPService :=
  match op with
  | Subscribe event cb => addEventListener event cb this
  | Unsubscribe event cb => removeEventListener event cb this
  end.

(** The callbacks registered for [event] after [ops], in registration
    order: a callback subscribed again keeps its place, one unsubscribed
    leaves the list. *)
Fixpoint registered (event : string) (ops : list hubOp) (acc : list callback)
    : list callback :=
  match ops with
  | [] => acc
  | Subscribe ev cb :: rest =>
      registered event rest (if decide (ev = event) then setAdd cb acc else acc)
  | Unsubscribe ev cb :: rest =>
      registered event rest (if decide (ev = event) then setDelete cb acc else acc)
  end.

Definition subscribersOf (event : string) (this : BluetoothBPService)
    : list callback :=
  default [] (listeners this !! event).

(** The stages of [connectToDevice] whose failure fails the connect. *)
Definition fatalStage (c : call) : Prop :=
  c = RequestDevice \/ c = GattConnect
  \/ c = GetPrimaryService OMRON_CUSTOM_SERVICE_UUID
  \/ c = GetCharacteristic BP_MEASUREMENT_UUID
  \/ c = StartNotifications.

(** Three bytes where the flags byte 0x00 announces seven. *)
Definition buffer_truncated : DataView := [x00; xb0; xf4].

(** * Further code of the same files *)

(** ** Reading validation ([validateBPReading]) *)

(** [ToBoolean] of a number or [null]: [null], [NaN] and [0] are falsy. *)
Definition truthy (v : jsval) : bool :=
  match v with
  | JNull => false
  | JNumber JNaN => false
  | JNumber (JFin q) => negb (Qeq_bool q 0)
  | JNumber _ => true
  end.

(** The global [isNaN]: [ToNumber], then the NaN test. *)
Definition isNaN (v : jsval) : bool :=
  match toNumber v with
  | JNaN => true
  | _ => false
  end.

(** [x > k] for an integer literal [k], and [a <= b] on values. *)
Definition gtLit (x : jsval) (k : Z) : bool := js_lt (jsint k) (toNumber x).
Definition leVal (a b : jsval) : bool := js_ge (toNumber b) (toNumber a).

Record Validation := mkValidation {
  isValid : bool;
  errors : list string }.

(** [errors.push(msg)] when [cond] holds. *)
Definition pushIf (cond : bool) (msg : string) (errors : list string)
    : list string :=
  if cond then errors ++ [msg] else errors.

(** [heartRate] is [None] when the argument is omitted or [undefined]: the
    default parameter turns both into [null]. *)
Definition validateBPReading (systolic diastolic : jsval)
    (heartRate : option jsval) : Validation :=
  let heartRate := default JNull heartRate in
  let errors := [] in
  let errors :=
    if negb (truthy systolic) || isNaN systolic then
      errors ++ ["Systolic pressure is required"]
    else if ltLit systolic 70 || gtLit systolic 300 then
      errors ++ ["Systolic pressure must be between 70-300 mmHg"]
    else errors in
  let errors :=
    if negb (truthy diastolic) || isNaN diastolic then
      errors ++ ["Diastolic pressure is required"]
    else if ltLit diastolic 40 || gtLit diastolic 200 then
      errors ++ ["Diastolic pressure must be between 40-200 mmHg"]
    else errors in
  let errors :=
    if truthy systolic && truthy diastolic && negb (isNaN systolic)
       && negb (isNaN diastolic) then
      pushIf (leVal systolic diastolic)
        "Systolic pressure must be greater than diastolic pressure" errors
    else errors in
  let errors :=
    match heartRate with
    | JNull => errors
    | JNumber _ =>
        if isNaN heartRate then errors ++ ["Heart rate must be a number"]
        else if ltLit heartRate 30 || gtLit heartRate 250 then
          errors ++ ["Heart rate must be between 30-250 bpm"]
        else errors
    end in
  {| isValid := bool_decide (length errors = 0%nat); errors := errors |}.

(** The call of the hook and of the reading component:
    [validateBPReading(m.systolic, m.diastolic, m.heartRate)]. *)
Definition validateMeasurement (m : Measurement) : Validation :=
  validateBPReading (systolic m) (diastolic m) (JNumber <$> heartRate m).

(** A finite value within [lo, hi]. *)
Definition finiteWithin (lo hi : Z) (v : jsval) : Prop :=
  exists q : Q,
    v = JNumber (JFin q) /\ (inject_Z lo <= q)%Q /\ (q <= inject_Z hi)%Q.

(** ** Stage grades *)

(** The rank of a stage label, from Normal (0) to Crisis (4). *)
Definition severity (stage : string) : nat :=
  if decide (stage = "Crisis") then 4
  else if decide (stage = "Stage 2") then 3
  else if decide (stage = "Stage 1") then 2
  else if decide (stage = "Elevated") then 1
  else 0.

(** The grade each pressure reaches on its own column of the table. *)
Definition systolicGrade (s : jsval) : nat :=
  if geLit s 180 then 4 else if geLit s 140 then 3
  else if geLit s 130 then 2 else if geLit s 120 then 1 else 0.

Definition diastolicGrade (d : jsval) : nat :=
  if geLit d 120 then 4 else if geLit d 90 then 3
  else if geLit d 80 then 2 else 0.

Definition notNaN (v : jsval) : Prop := toNumber v <> JNaN.

(** ** Status messages ([parseMeasurementStatus] of the parser utilities) *)

Record StatusMessage := mkMessage {
  messageType : string;
  messageText : string }.

(** [status] is [None] for [null] or [undefined]. *)
Definition parseMeasurementStatus (status : option MeasurementStatus)
    : list StatusMessage :=
  match status with
  | None => []
  | Some status =>
      let messages := [] in
      let messages :=
        if bodyMovementDetected status then
          messages ++ [mkMessage "warning" "Body movement detected during measurement"]
        else messages in
      let messages :=
        if cuffFitError status then
          messages ++ [mkMessage "error" "Cuff fit error - please adjust cuff and retry"]
        else messages in
      let messages :=
        if irregularPulseDetected status then
          messages ++ [mkMessage "warning" "Irregular pulse detected"]
        else messages in
      let messages :=
        if pulseRateOutOfRange status then
          messages ++ [mkMessage "warning" "Pulse rate out of normal range"]
        else messages in
      let messages :=
        if measurementPositionImproper status then
          messages ++ [mkMessage "warning" "Improper measurement position detected"]
        else messages in
      messages
  end.

(** The number of bits set among the low five of a bitmap. *)
Definition lowFiveSet (f : Z) : nat :=
  length (filter (λ i, Z.testbit f i = true) [0; 1; 2; 3; 4]).

(** ** Browser compatibility ([getCompatibilityMessage]) *)

Definition getCompatibilityMessage (isSupported isSecure isIOS : bool)
    : string :=
  if isIOS then
    "Web Bluetooth is not supported on iOS. Please use the Bluefy browser app or manual entry."
  else if negb isSupported then
    "Your browser does not support Web Bluetooth. Please use Chrome, Edge, or Brave browser."
  else if negb isSecure then
    "Web Bluetooth requires a secure connection (HTTPS). Please access the site via HTTPS."
  else
    "Your browser supports Web Bluetooth. You can connect to compatible devices.".

(** What [checkBrowserCompatibility] reads from [navigator] and [window]:
    whether [navigator] has a [bluetooth] key, the page's protocol and host
    name, and the results of its tests on the user agent and vendor
    strings. *)
Record BrowserEnv := mkBrowserEnv {
  bluetoothInNavigator : bool;
  protocol : string;
  hostname : string;
  agentIsApplePhone : bool;
  hasMSStream : bool;
  agentHasChrome : bool;
  vendorIsGoogle : bool;
  agentHasEdg : bool;
  braveDefined : bool;
  agentHasSafari : bool;
  vendorIsApple : bool }.

Record BrowserFlags := mkBrowserFlags {
  isChrome : bool; isEdge : bool; isBrave : bool; isSafari : bool }.

Record Compatibility := mkCompatibility {
  compatSupported : bool;
  compatSecure : bool;
  compatIOS : bool;
  compatBrowser : BrowserFlags;
  canUseBluetooth : bool;
  compatMessage : string }.

Definition checkBrowserCompatibility (env : BrowserEnv) : Compatibility :=
  let isSupported := bluetoothInNavigator env in
  let isSecure :=
    bool_decide (protocol env = "https:")
    || bool_decide (hostname env = "localhost") in
  let isIOS := agentIsApplePhone env && negb (hasMSStream env) in
  let isChrome := agentHasChrome env && vendorIsGoogle env in
  let isEdge := agentHasEdg env in
  let isBrave := braveDefined env in
  let isSafari := agentHasSafari env && vendorIsApple env in
  {| compatSupported := isSupported;
     compatSecure := isSecure;
     compatIOS := isIOS;
     compatBrowser := mkBrowserFlags isChrome isEdge isBrave isSafari;
     canUseBluetooth := isSupported && isSecure && negb isIOS;
     compatMessage := getCompatibilityMessage isSupported isSecure isIOS |}.

Definition readyMessage : string :=
  "Your browser supports Web Bluetooth. You can connect to compatible devices.".

(** ** Measurement history of the [useBluetooth] hook *)

(** The updater [prev => [enrichedMeasurement, ...prev].slice(0, 10)]. *)
Definition pushHistory {A} (enrichedMeasurement : A) (prev : list A) : list A :=
  take 10 (enrichedMeasurement :: prev).

(** The history after the measurements of [arrivals] came in, first to
    last, starting from [history]. *)
Definition historyAfter {A} (arrivals : list A) (history : list A) : list A :=
  fold_left (λ prev x, pushHistory x prev) arrivals history.

(** ** What [Math.round] can return *)

Definition roundedNumber (n : jsnum) : Prop :=
  n = JNaN \/ n = JInf \/ n = JNegInf \/ exists z : Z, n = jsint z.


(** * Properties *)

(** ** Facts about bytes and reads *)

Lemma byteZ_range (b : byte) : 0 <= byteZ b < 256.
Proof.
  destruct b; vm_compute; split; congruence.
Qed.

Lemma word16_range (lo hi : byte) : 0 <= word16 lo hi < 0x10000.
Proof.
  unfold word16. pose proof (byteZ_range lo). pose proof (byteZ_range hi). lia.
Qed.

Lemma getUint16_word (dv : DataView) (i : nat) (lo hi : byte) :
  dv !! i = Some lo -> dv !! S i = Some hi ->
  getUint16 dv i = Returns (word16 lo hi).
Proof. unfold getUint16. intros -> ->. reflexivity. Qed.

Lemma getInt16_word (dv : DataView) (i : nat) (lo hi : byte) :
  dv !! i = Some lo -> dv !! S i = Some hi ->
  getInt16 dv i = Returns (int16 (word16 lo hi)).
Proof.
  intros Hlo Hhi. unfold getInt16. rewrite (getUint16_word _ _ _ _ Hlo Hhi).
  reflexivity.
Qed.

Lemma int16_low12 (w : Z) : Z.land (int16 w) 0x0FFF = w mod 0x1000.
Proof.
  change 0x0FFF with (Z.ones 12). rewrite Z.land_ones by lia.
  change (2 ^ 12) with 0x1000. unfold int16.
  destruct (0x8000 <=? w); [|reflexivity].
  replace (w - 0x10000) with (w + (-16) * 0x1000) by lia.
  apply Z.mod_add. lia.
Qed.

Lemma int16_high4 (w : Z) :
  Z.shiftr (int16 w) 12 =
  if 0x8000 <=? w then w / 0x1000 - 16 else w / 0x1000.
Proof.
  rewrite Z.shiftr_div_pow2 by lia. change (2 ^ 12) with 0x1000.
  unfold int16. destruct (0x8000 <=? w); [|reflexivity].
  replace (w - 0x10000) with (w + (-16) * 0x1000) by lia.
  rewrite Z.div_add by lia. lia.
Qed.

Lemma Qred_mul_red (a b : Q) : Qred (a * Qred b) = Qred (a * b).
Proof. apply Qred_complete. now rewrite Qred_correct. Qed.

Lemma sfloat_of_word (w : Z) :
  0 <= w < 0x10000 -> reserved w = false ->
  sfloatOfInt16 (int16 w) =
  JNumber (JFin (Qred (inject_Z (spec_mantissa w) * Qpower 10 (spec_exponent w)))).
Proof.
  intros Hw Hres. unfold reserved in Hres.
  repeat (apply orb_false_iff in Hres; destruct Hres as [Hres ?]).
  assert (Hq : 0 <= w / 0x1000 < 16)
    by (split; [apply Z.div_pos; lia | apply Z.div_lt_upper_bound; lia]).
  assert (Hdm : w = 0x1000 * (w / 0x1000) + w mod 0x1000)
    by (apply Z.div_mod; lia).
  assert (Hr : 0 <= w mod 0x1000 < 0x1000) by (apply Z.mod_pos_bound; lia).
  unfold sfloatOfInt16.
  rewrite int16_low12, int16_high4.
  assert (Hne : forall c, 0 <= c < 0x8000 -> (w =? c) = false ->
                          (int16 w =? c) = false).
  { intros c Hc Hwc. unfold int16. destruct (0x8000 <=? w) eqn:E; [|exact Hwc].
    apply Z.eqb_neq. apply Z.leb_le in E. lia. }
  rewrite !Hne by (assumption || lia).
  unfold spec_mantissa, spec_exponent, js_mul, jsint, Math_pow10.
  rewrite Qred_mul_red.
  do 4 f_equal.
  - f_equal. destruct (0x0800 <=? w mod 0x1000); lia.
  - f_equal.
    destruct (0x8000 <=? w) eqn:E.
    + apply Z.leb_le in E.
      assert (8 <= w / 0x1000) by lia.
      destruct (0x08 <=? w / 0x1000 - 16) eqn:E1; [apply Z.leb_le in E1; lia|].
      destruct (0x08 <=? w / 0x1000) eqn:E2; [lia | apply Z.leb_gt in E2; lia].
    + apply Z.leb_gt in E.
      assert (w / 0x1000 < 8) by lia.
      reflexivity.
Qed.

(** ** SFLOAT *)



(** ** The record parser *)

Example parse_mmHg :
  _parseMeasurement 0 buffer_mmHg =
  Returns (mkMeasurement (JNumber (jsint 120)) (JNumber (jsint 80))
             (JNumber (jsint 93)) "mmHg" 0 None None None None).
Proof. reflexivity. Qed.

Example parse_kPa :
  _parseMeasurement 0 buffer_kPa =
  Returns (mkMeasurement (JNumber (jsint 120)) (JNumber (jsint 80))
             (JNumber (jsint 93)) "kPa" 0 None None None None).
Proof. reflexivity. Qed.

Example parse_pulse :
  heartRate <$> _parseMeasurement 0 buffer_pulse = Returns (Some (jsint 70)).
Proof. reflexivity. Qed.

Example parse_timestamp :
  deviceTimestamp <$> _parseMeasurement 0 buffer_timestamp =
  Returns (Some (mkDate 2025 7 27 14 30 45)).
Proof. reflexivity. Qed.

Example parse_status :
  status <$> _parseMeasurement 0 buffer_status =
  Returns (Some (mkStatus true true true false false)).
Proof. reflexivity. Qed.

Lemma hasBits_testbit (b : byte) :
  hasBits (byteZ b) 0x01 = Z.testbit (byteZ b) 0
  /\ hasBits (byteZ b) 0x02 = Z.testbit (byteZ b) 1
  /\ hasBits (byteZ b) 0x04 = Z.testbit (byteZ b) 2
  /\ hasBits (byteZ b) 0x08 = Z.testbit (byteZ b) 3
  /\ hasBits (byteZ b) 0x10 = Z.testbit (byteZ b) 4.
Proof. destruct b; vm_compute; repeat split. Qed.

Ltac flag_bits fb :=
  destruct (hasBits_testbit fb) as (_ & -> & -> & -> & ->);
  destruct (Z.testbit (byteZ fb) 1) eqn:?, (Z.testbit (byteZ fb) 2) eqn:?,
    (Z.testbit (byteZ fb) 3) eqn:?, (Z.testbit (byteZ fb) 4) eqn:?.

Lemma parseMeasurementCursor_short (now : Z) (dataView : DataView) :
  tooShort dataView -> parseMeasurementCursor now dataView = Throws outOfBounds.
Proof.
  destruct dataView as [|fb dv]; [reflexivity|].
  unfold tooShort, recordLength, parseMeasurementCursor.
  change (getUint8 (fb :: dv) 0) with (Returns (byteZ fb)).
  simpl mbind at 1.
  flag_bits fb; intros Hlen;
    repeat (destruct dv as [|? dv]; [reflexivity|]);
    simpl in Hlen; lia.
Qed.

Lemma parseMeasurement_cursor (now : Z) (dataView : DataView) :
  _parseMeasurement now dataView = fst <$> parseMeasurementCursor now dataView.
Proof.
  unfold _parseMeasurement. destruct (parseMeasurementCursor now dataView); reflexivity.
Qed.

Lemma getUint8_head (b : byte) (dv : DataView) :
  getUint8 (b :: dv) 0 = Returns (byteZ b).
Proof. reflexivity. Qed.

Lemma bind_returns {A B} (a : A) (f : A -> outcome B) : Returns a ≫= f = f a.
Proof. reflexivity. Qed.

Lemma take_tooShort (n : nat) (dataView : DataView) (fb : byte) :
  dataView !! 0%nat = Some fb ->
  (n < recordLength (byteZ fb))%nat ->
  tooShort (take n dataView).
Proof.
  intros Hfb Hn. destruct dataView as [|b dv]; [discriminate|].
  injection Hfb as ->. destruct n as [|n]; [exact I|].
  unfold tooShort. cbn [take length]. rewrite length_take. lia.
Qed.

Local Arguments sfloatOfInt16 : simpl never.
Local Arguments byteZ : simpl never.
Local Arguments convertPressure : simpl never.
Local Arguments Math_round : simpl never.
Local Arguments _parseMeasurementStatus : simpl never.
Local Arguments Z.mul : simpl never.
Local Arguments Z.add : simpl never.
Local Arguments Z.sub : simpl never.
Local Arguments Z.leb : simpl never.

Lemma parseMeasurement_parsedAs (now : Z) (dataView : DataView) (fb : byte) :
  dataView !! 0%nat = Some fb ->
  (recordLength (byteZ fb) <= length dataView)%nat ->
  exists m : Measurement, parsedAs now dataView fb m.
Proof.
  intros Hfb Hlen.
  destruct dataView as [|b dv]; [discriminate|]. injection Hfb as ->.
  cut (exists m, parsedAs now (fb :: dv) fb m); [trivial|].
  revert Hlen.
  destruct (hasBits_testbit fb) as (H0 & H1 & H2 & H3 & H4).
  unfold recordLength.
  destruct (Z.testbit (byteZ fb) 1) eqn:B1, (Z.testbit (byteZ fb) 2) eqn:B2,
    (Z.testbit (byteZ fb) 3) eqn:B3, (Z.testbit (byteZ fb) 4) eqn:B4;
    intros Hlen;
    repeat (destruct dv as [|? dv]; [simpl in Hlen; lia|]);
    eexists; split;
    rewrite ?parseMeasurement_cursor;
    unfold recordLength, statusOffset, userIdOffset, pulseOffset;
    rewrite ?B1, ?B2, ?B3, ?B4;
    cbn [firstn Nat.add];
    unfold parseMeasurementCursor;
    rewrite ?getUint8_head, ?bind_returns; cbv beta;
    rewrite ?H0, ?H1, ?H2, ?H3, ?H4, ?B1, ?B2, ?B3, ?B4;
    try reflexivity;
    simpl;
    repeat match goal with
      | |- _ /\ _ => split
      | |- is_Some _ <-> _ => split; intros HH; try done; try (by inversion HH)
      | |- _ -> _ => intros HH; try discriminate
      | |- exists _, _ => eexists
      | |- _ = _ => reflexivity
      end.
Qed.

Lemma parseMeasurement_short (now : Z) (dataView : DataView) :
  tooShort dataView -> _parseMeasurement now dataView = Throws outOfBounds.
Proof.
  intros H. rewrite parseMeasurement_cursor.
  rewrite parseMeasurementCursor_short by exact H. reflexivity.
Qed.

(** C2. For a buffer that holds the bytes its flags byte announces, the
    parser returns a measurement with its cursor at exactly that number of
    bytes; the result is the same on the buffer cut to that length, and any
    shorter cut makes it throw; [deviceTimestamp], [heartRate], [userId] and
    [status] are set exactly when bits 1, 2, 3, 4 are; the pressures are
    read at offsets 1, 3, 5 and each optional field at the offset left by
    the fields before it, starting at 7 (7 bytes of timestamp, 2 of pulse,
    1 of user id, 2 of status). *)
Theorem parseMeasurement_layout (now : Z) (dataView : DataView) (fb : byte) :
  dataView !! 0%nat = Some fb ->
  (recordLength (byteZ fb) <= length dataView)%nat ->
  exists m : Measurement,
    parseMeasurementCursor now dataView = Returns (m, recordLength (byteZ fb))
    /\ _parseMeasurement now (take (recordLength (byteZ fb)) dataView) = Returns m
    /\ (forall n, (n < recordLength (byteZ fb))%nat ->
          _parseMeasurement now (take n dataView) = Throws outOfBounds)
    /\ (is_Some (deviceTimestamp m) <-> Z.testbit (byteZ fb) 1 = true)
    /\ (is_Some (heartRate m) <-> Z.testbit (byteZ fb) 2 = true)
    /\ (is_Some (userId m) <-> Z.testbit (byteZ fb) 3 = true)
    /\ (is_Some (status m) <-> Z.testbit (byteZ fb) 4 = true)
    /\ (exists s d p,
          _parseSFLOAT dataView 1 = Returns s
          /\ _parseSFLOAT dataView 3 = Returns d
          /\ _parseSFLOAT dataView 5 = Returns p
          /\ systolic m = convertPressure (Z.testbit (byteZ fb) 0) s
          /\ diastolic m = convertPressure (Z.testbit (byteZ fb) 0) d
          /\ meanArterialPressure m = convertPressure (Z.testbit (byteZ fb) 0) p)
    /\ (Z.testbit (byteZ fb) 1 = true ->
        exists year month day hours minutes seconds,
          getUint16 dataView 7 = Returns year
          /\ getUint8 dataView 9 = Returns month
          /\ getUint8 dataView 10 = Returns day
          /\ getUint8 dataView 11 = Returns hours
          /\ getUint8 dataView 12 = Returns minutes
          /\ getUint8 dataView 13 = Returns seconds
          /\ deviceTimestamp m =
             Some (mkDate year (month - 1) day hours minutes seconds))
    /\ (Z.testbit (byteZ fb) 2 = true ->
        exists pulseRate,
          _parseSFLOAT dataView (pulseOffset (byteZ fb)) = Returns pulseRate
          /\ heartRate m = Some (Math_round (toNumber pulseRate)))
    /\ (Z.testbit (byteZ fb) 3 = true ->
        exists u,
          getUint8 dataView (userIdOffset (byteZ fb)) = Returns u
          /\ userId m = Some u)
    /\ (Z.testbit (byteZ fb) 4 = true ->
        exists statusFlags,
          getUint16 dataView (statusOffset (byteZ fb)) = Returns statusFlags
          /\ status m = Some (_parseMeasurementStatus statusFlags)).
Proof.
  intros Hfb Hlen.
  destruct (parseMeasurement_parsedAs now dataView fb Hfb Hlen) as [m Hm].
  exists m. destruct Hm.
  repeat (split; [assumption|]).
  split.
  { intros n Hn. apply parseMeasurement_short. eapply take_tooShort; eauto. }
  repeat (split; [assumption|]). assumption.
Qed.

Lemma parseMeasurement_layout_witness :
  buffer_pulse !! 0%nat = Some x04
  /\ (recordLength (byteZ x04) <= length buffer_pulse)%nat
  /\ exists m : Measurement,
       parseMeasurementCursor 0 buffer_pulse = Returns (m, 9%nat)
       /\ heartRate m = Some (jsint 70)
       /\ deviceTimestamp m = None /\ userId m = None /\ status m = None.
Proof.
  split; [reflexivity|]. split; [vm_compute; lia|].
  destruct (parseMeasurement_layout 0 buffer_pulse x04 eq_refl) as (m & Hc & _).
  { vm_compute; lia. }
  exists m. split; [exact Hc|].
  vm_compute in Hc. injection Hc as <-. repeat split.
Defined.

(** ** Units *)

Lemma Math_round_nearest (q : Q) :
  exists n : Z,
    Math_round (JFin q) = jsint n
    /\ (inject_Z n - (1 # 2) <= q)%Q /\ (q < inject_Z n + (1 # 2))%Q.
Proof.
  exists (Qfloor (q + (1 # 2))). split; [reflexivity|].
  pose proof (Qfloor_le (q + (1 # 2))) as Hle.
  pose proof (Qlt_floor (q + (1 # 2))) as Hlt.
  rewrite inject_Z_plus in Hlt.
  change (inject_Z 1) with 1%Q in Hlt.
  split; lra.
Qed.

Lemma toMmHg_finite (q : Q) :
  toMmHg (JNumber (JFin q)) =
  reading (Qfloor (q * (750062 # 100000) + (1 # 2))).
Proof.
  unfold toMmHg, reading, kPaFactor, toNumber, js_mul, Math_round, jsint.
  do 3 f_equal. apply Qfloor_comp. now rewrite Qred_correct.
Qed.

(** C4 as the specification states it fails on the pulse: with flags 0x05
    (kPa, pulse present) and a pulse field of 70, [heartRate] is 70, not the
    525 that multiplying by 7.50062 would give. *)
Lemma kPa_pulse_not_converted :
  hasBits (byteZ x05) 0x01 = true
  /\ hasBits (byteZ x05) 0x04 = true
  /\ _parseSFLOAT buffer_kPa_pulse 7 = Returns (reading 70)
  /\ Math_round (js_mul (jsint 70) kPaFactor) = jsint 525
  /\ heartRate <$> _parseMeasurement 0 buffer_kPa_pulse = Returns (Some (jsint 70))
  /\ heartRate <$> _parseMeasurement 0 buffer_kPa_pulse
     <> Returns (Some (Math_round (js_mul (jsint 70) kPaFactor))).
Proof. repeat split. vm_compute. discriminate. Qed.

(** C4, amended.  With bit 0 set the three pressures are the decoded SFLOAT
    values multiplied by 7.50062 and rounded to the nearest integer, and
    [originalUnit] is "kPa"; with bit 0 clear they are the decoded values
    unchanged and [originalUnit] is "mmHg".  The pulse, when bit 2 is set,
    is the decoded value rounded to the nearest integer and is never
    multiplied by 7.50062, whatever bit 0 says.  16.0, 10.7 and 12.4 kPa
    come out as 120, 80 and 93. *)
Theorem parseMeasurement_units (now : Z) (dataView : DataView) (fb : byte) :
  dataView !! 0%nat = Some fb ->
  (recordLength (byteZ fb) <= length dataView)%nat ->
  (exists (m : Measurement) (s d p : jsval),
    _parseMeasurement now dataView = Returns m
    /\ _parseSFLOAT dataView 1 = Returns s
    /\ _parseSFLOAT dataView 3 = Returns d
    /\ _parseSFLOAT dataView 5 = Returns p
    /\ (Z.testbit (byteZ fb) 0 = true ->
        systolic m = toMmHg s /\ diastolic m = toMmHg d
        /\ meanArterialPressure m = toMmHg p /\ originalUnit m = "kPa")
    /\ (Z.testbit (byteZ fb) 0 = false ->
        systolic m = s /\ diastolic m = d
        /\ meanArterialPressure m = p /\ originalUnit m = "mmHg")
    /\ (Z.testbit (byteZ fb) 2 = true ->
        exists pulseRate,
          _parseSFLOAT dataView (pulseOffset (byteZ fb)) = Returns pulseRate
          /\ heartRate m = Some (Math_round (toNumber pulseRate))))
  /\ (forall q : Q,
        toMmHg (JNumber (JFin q)) =
        reading (Qfloor (q * (750062 # 100000) + (1 # 2))))
  /\ (forall q : Q, exists n : Z,
        Math_round (JFin q) = jsint n
        /\ (inject_Z n - (1 # 2) <= q)%Q /\ (q < inject_Z n + (1 # 2))%Q)
  /\ _parseMeasurement 0 buffer_kPa =
     Returns (mkMeasurement (reading 120) (reading 80) (reading 93) "kPa" 0
                None None None None).
Proof.
  intros Hfb Hlen.
  split; [|split; [exact toMmHg_finite | split; [exact Math_round_nearest | reflexivity]]].
  destruct (parseMeasurement_parsedAs now dataView fb Hfb Hlen) as [m Hm].
  destruct Hm as [Hc _ _ _ _ _ (s & d & p & Hs & Hd & Hp & Es & Ed & Ep) Hu _ Hh _ _].
  exists m, s, d, p.
  split; [rewrite parseMeasurement_cursor, Hc; reflexivity|].
  repeat (split; [assumption|]).
  split; [|split].
  - intros B0. rewrite B0 in *. auto.
  - intros B0. rewrite B0 in *. auto.
  - exact Hh.
Qed.

Lemma parseMeasurement_units_witness :
  buffer_kPa_pulse !! 0%nat = Some x05
  /\ (recordLength (byteZ x05) <= length buffer_kPa_pulse)%nat
  /\ exists m : Measurement,
       _parseMeasurement 0 buffer_kPa_pulse = Returns m
       /\ systolic m = reading 120 /\ originalUnit m = "kPa"
       /\ heartRate m = Some (jsint 70).
Proof.
  split; [reflexivity|]. split; [vm_compute; lia|].
  destruct (parseMeasurement_units 0 buffer_kPa_pulse x05 eq_refl)
    as ((m & s & d & p & Hm & _) & _).
  { vm_compute; lia. }
  exists m. split; [exact Hm|].
  vm_compute in Hm. injection Hm as <-. repeat split.
Defined.

(** ** The classifier *)

Lemma orb_rule (a b : bool) : a || b = true <-> a = true \/ b = true.
Proof. destruct a, b; simpl; intuition congruence. Qed.

Lemma andb_rule (a b : bool) : a && b = true <-> a = true /\ b = true.
Proof. destruct a, b; simpl; intuition congruence. Qed.

Lemma calculateHTNStatus_classified (s d : jsval) :
  classified s d (calculateHTNStatus s d).
Proof.
  unfold calculateHTNStatus.
  destruct (geLit s 180 || geLit d 120) eqn:R1.
  { apply classCrisis, orb_rule, R1. }
  assert (N1 : ~ crisisRule s d) by (intros H; apply orb_rule in H; congruence).
  destruct (geLit s 140 || geLit d 90) eqn:R2.
  { apply classStage2; [exact N1 | apply orb_rule, R2]. }
  assert (N2 : ~ stage2Rule s d) by (intros H; apply orb_rule in H; congruence).
  destruct (geLit s 130 || geLit d 80) eqn:R3.
  { apply classStage1; [exact N1 | exact N2 | apply orb_rule, R3]. }
  assert (N3 : ~ stage1Rule s d) by (intros H; apply orb_rule in H; congruence).
  destruct (geLit s 120 && ltLit d 80) eqn:R4.
  { apply classElevated; [exact N1 | exact N2 | exact N3 | apply andb_rule, R4]. }
  apply classNormal; [exact N1 | exact N2 | exact N3 |].
  intros H; apply andb_rule in H; congruence.
Qed.

Lemma classified_functional (s d : jsval) (r1 r2 : string) :
  classified s d r1 -> classified s d r2 -> r1 = r2.
Proof. intros H1 H2; inversion H1; inversion H2; subst; tauto. Qed.

(** C3. The classifier returns the stage of the first row of the threshold
    table (Crisis, Stage 2, Stage 1, Elevated, Normal, in this order) whose
    rule holds, for all inputs, and the five readings of the classification
    table get the stages listed there. *)
Theorem calculateHTNStatus_first_match :
  (forall (s d : jsval) (stage : string),
      calculateHTNStatus s d = stage <-> classified s d stage)
  /\ calculateHTNStatus (reading 110) (reading 70) = "Normal"
  /\ calculateHTNStatus (reading 125) (reading 75) = "Elevated"
  /\ calculateHTNStatus (reading 135) (reading 85) = "Stage 1"
  /\ calculateHTNStatus (reading 150) (reading 95) = "Stage 2"
  /\ calculateHTNStatus (reading 190) (reading 125) = "Crisis".
Proof.
  split; [|repeat split; reflexivity].
  intros s d stage. split.
  - intros <-. apply calculateHTNStatus_classified.
  - intros H. eapply classified_functional; [|exact H].
    apply calculateHTNStatus_classified.
Qed.

Lemma calculateHTNStatus_first_match_witness :
  calculateHTNStatus (reading 125) (reading 75) = "Elevated"
  /\ classified (reading 125) (reading 75) "Elevated".
Proof.
  split; [reflexivity|].
  apply (proj1 calculateHTNStatus_first_match (reading 125) (reading 75)).
  reflexivity.
Defined.

(** ** Connection *)

(** Symbolic execution of a method in a hypothesis [H : method tr s = res]:
    unfold it down to the calls on the transport, then split on each value
    that decides the path (the result of a call, a property of a handle, a
    reference of the service). *)
Ltac next_case H :=
  match type of H with
  | context [match ?x with _ => _ end] =>
      lazymatch x with
      | context [match _ with _ => _ end] => fail
      | _ => revert H; destruct x eqn:?; intro H
      end
  end; cbn [fst snd rejection app] in H.

Ltac run_paths H :=
  cbv [connectToDevice connectAttempt isSupported disconnect _handleDisconnection
       _handleMeasurement _startNotifications _readFeatures
       bind tryCatch ret throw getThis modify readWorld emit console perform
       liftOutcome deref set_device set_server set_service
       set_measurementCharacteristic _cleanup
       device server service measurementCharacteristic
       fst snd rejection] in H;
  repeat next_case H;
  simplify_eq.

Section ConnectionProperties.
Context {W : Type} (tr : Transport W).

Lemma connect_lookups (s s' : BluetoothBPService * W) (r : outcome DeviceInfo)
    (t : list entry) :
  connectToDevice tr s = (r, s', t) ->
  match lookups BP_SERVICE_UUID t with
  | [] => lookups OMRON_CUSTOM_SERVICE_UUID t = []
  | [None] => lookups OMRON_CUSTOM_SERVICE_UUID t = []
  | [Some _] => exists r, lookups OMRON_CUSTOM_SERVICE_UUID t = [r]
  | _ => False
  end.
Proof.
  destruct s as [this w]. intros H.
  run_paths H; vm_compute; solve [reflexivity | eauto].
Qed.
End ConnectionProperties.

(** ** Event hub *)

Lemma subscribersOf_add (event ev : string) (cb : callback)
    (this : BluetoothBPService) :
  subscribersOf event (addEventListener ev cb this) =
  if decide (ev = event) then setAdd cb (subscribersOf event this)
  else subscribersOf event this.
Proof.
  unfold subscribersOf, addEventListener, withListeners. simpl.
  destruct (decide (ev = event)) as [->|Hne].
  - rewrite lookup_insert_eq. simpl.
    destruct (decide (is_Some (listeners this !! event))) as [[s Hs]|Hn].
    + reflexivity.
    + rewrite lookup_insert_eq. simpl.
      destruct (listeners this !! event) eqn:E; [exfalso; apply Hn; eauto|].
      reflexivity.
  - rewrite lookup_insert_ne by exact Hne.
    destruct (decide (is_Some (listeners this !! ev))); [reflexivity|].
    rewrite lookup_insert_ne by exact Hne. reflexivity.
Qed.

Lemma subscribersOf_remove (event ev : string) (cb : callback)
    (this : BluetoothBPService) :
  subscribersOf event (removeEventListener ev cb this) =
  if decide (ev = event) then setDelete cb (subscribersOf event this)
  else subscribersOf event this.
Proof.
  unfold subscribersOf, removeEventListener, withListeners.
  destruct (decide (ev = event)) as [->|Hne].
  - destruct (listeners this !! event) eqn:E; simpl.
    + rewrite lookup_insert_eq. reflexivity.
    + rewrite E. reflexivity.
  - destruct (listeners this !! ev) eqn:E; simpl; [|reflexivity].
    rewrite lookup_insert_ne by exact Hne. reflexivity.
Qed.

Lemma subscribersOf_ops (event : string) (ops : list hubOp)
    (this : BluetoothBPService) :
  subscribersOf event (fold_left applyOp ops this) =
  registered event ops (subscribersOf event this).
Proof.
  revert this. induction ops as [|[ev cb|ev cb] ops IH]; intros this; simpl.
  - reflexivity.
  - rewrite IH, subscribersOf_add. reflexivity.
  - rewrite IH, subscribersOf_remove. reflexivity.
Qed.

Section HubProperties.
Context {W : Type} (tr : Transport W).

Lemma runAll_length (data : payload) (cbs : list callback) (w : W) :
  length (runAll tr data cbs w).1 = length cbs.
Proof.
  revert w. induction cbs as [|cb cbs IH]; intros w; [reflexivity|].
  cbn [runAll]. destruct (runCallback tr cb data w) as [r w1].
  specialize (IH w1). destruct (runAll tr data cbs w1) as [rs w'].
  simpl in *. congruence.
Qed.

(** The dispatch loop: every callback of the list runs, in order, on the
    outside state its predecessors left, whether they threw or not; the
    loop itself returns and the service object is untouched. *)
Lemma forEach_dispatch (event : string) (data : payload) (cbs : list callback)
    (this : BluetoothBPService) (w : W) :
  forEach cbs
    (λ cb, tryCatch (invoke tr cb data)
             (λ error, console ErrorLevel (listenerError event)))
    (this, w)
  = (Returns (), (this, (runAll tr data cbs w).2),
     concat (zip_with (delivery event data) cbs (runAll tr data cbs w).1)).
Proof.
  set (f := λ cb, tryCatch (invoke tr cb data)
                    (λ error, console ErrorLevel (listenerError event))).
  revert w. induction cbs as [|cb cbs IH]; intros w; [reflexivity|].
  cbn [forEach runAll]. unfold bind at 1. unfold f at 1.
  unfold tryCatch, invoke, console, emit. cbn [fst snd].
  destruct (runCallback tr cb data w) as [[[]|e] w1] eqn:E;
    cbv beta iota; rewrite (IH w1);
    destruct (runAll tr data cbs w1) as [rs w']; reflexivity.
Qed.

Lemma invocations_deliveries (event : string) (data : payload)
    (cbs : list callback) (results : list (outcome unit)) :
  length results = length cbs ->
  invocations (concat (zip_with (delivery event data) cbs results)) =
  map (λ cb, (cb, data)) cbs.
Proof.
  revert results. induction cbs as [|cb cbs IH]; intros [|r results] Hlen;
    try discriminate; [reflexivity|].
  simpl. destruct r; simpl; f_equal; apply IH; simpl in Hlen; congruence.
Qed.

Lemma notifyListeners_run (event : string) (data : payload)
    (this : BluetoothBPService) (w : W) :
  _notifyListeners tr event data (this, w)
  = (Returns (), (this, (runAll tr data (subscribersOf event this) w).2),
     concat (zip_with (delivery event data) (subscribersOf event this)
               (runAll tr data (subscribersOf event this) w).1)).
Proof.
  unfold _notifyListeners, subscribersOf, bind, getThis. cbn [fst snd].
  destruct (listeners this !! event) as [cbs|] eqn:E; simpl.
  - rewrite forEach_dispatch. reflexivity.
  - reflexivity.
Qed.

Lemma notifyListeners_dispatch (event : string) (data : payload)
    (this : BluetoothBPService) (w : W) :
  exists (w' : W) (results : list (outcome unit)),
    _notifyListeners tr event data (this, w)
    = (Returns (), (this, w'),
       concat (zip_with (delivery event data) (subscribersOf event this) results))
    /\ length results = length (subscribersOf event this).
Proof.
  eexists _, _. split; [apply notifyListeners_run | apply runAll_length].
Qed.
End HubProperties.

Ltac absurd_entry H :=
  repeat (destruct H as [H|H]; [try discriminate H|]); try discriminate H.

Section Lifecycle.
Context {W : Type} (tr : Transport W).

Lemma connect_throws_cleared (s s' : BluetoothBPService * W) (e : jserror)
    (t : list entry) :
  hasBluetooth tr s.2 = true ->
  connectToDevice tr s = (Throws e, s', t) ->
  cleared s'.1 /\ isConnected tr s' = false /\ listeners s'.1 = listeners s.1.
Proof.
  destruct s as [this w]. cbn [snd fst]. intros Hsup H.
  unfold connectToDevice, isSupported, bind, readWorld in H. cbn [fst snd] in H.
  rewrite Hsup in H. cbn [negb] in H. unfold tryCatch in H.
  destruct (connectAttempt tr (this, w)) as [[[a|e1] [this1 w1]] t1] eqn:E.
  { discriminate H. }
  unfold bind, console, emit, modify, throw in H. cbn [fst snd] in H.
  simplify_eq. cbn [fst].
  assert (Hl : listeners this1 = listeners this).
  { clear -E. run_paths E; try reflexivity; destruct this; reflexivity. }
  repeat split; assumption || reflexivity.
Qed.

Lemma connect_stage_rethrown (s s' : BluetoothBPService * W)
    (r : outcome DeviceInfo) (t : list entry) (c : call) (e : jserror) :
  connectToDevice tr s = (r, s', t) ->
  fatalStage c -> In (Call c (Some e)) t -> r = Throws e.
Proof.
  destruct s as [this w]. intros H Hc Hin.
  run_paths H; cbn [In] in Hin;
    repeat (destruct Hin as [Hin|Hin];
            [try discriminate Hin; try (injection Hin as <- <-)|]);
    try contradiction Hin; try reflexivity;
    exfalso; unfold fatalStage in Hc; absurd_entry Hc.
Qed.

Lemma connect_unsupported (s : BluetoothBPService * W) :
  hasBluetooth tr s.2 = false ->
  connectToDevice tr s = (Throws notSupported, s, []).
Proof.
  destruct s as [this w]. cbn [snd]. intros Hsup.
  unfold connectToDevice, isSupported, bind, readWorld. cbn [fst snd].
  rewrite Hsup. reflexivity.
Qed.
End Lifecycle.

Section Disconnect.
Context {W : Type} (tr : Transport W).

(** Every way [disconnect] can run. *)
Lemma disconnect_cases (s s' : BluetoothBPService * W) (r : outcome unit)
    (t : list entry) :
  disconnect tr s = (r, s', t) ->
  (r = Returns () /\ s'.1 = _cleanup s.1
   /\ ~ (exists e, In (Call GattDisconnect (Some e)) t))
  \/ (exists e, r = Throws e /\ s'.1 = s.1 /\ is_Some (device s.1)
                /\ In (Call GattDisconnect (Some e)) t).
Proof.
  destruct s as [this w]. intros H.
  run_paths H; cbn [fst snd];
    first
      [ left; split; [reflexivity|]; split; [reflexivity|];
        intros [? He]; cbn [In] in He; absurd_entry He; contradiction
      | right; eexists; split; [reflexivity|]; split; [reflexivity|];
        split; [eexists; reflexivity|]; cbn [In]; tauto ].
Qed.

Lemma disconnect_cleared_noop (this : BluetoothBPService) (w : W) :
  cleared this -> disconnect tr (this, w) = (Returns (), (this, w), []).
Proof.
  destruct this as [d sv sc c l]. intros (Hd & Hsv & Hsc & Hc).
  simpl in *. subst. reflexivity.
Qed.

Lemma disconnect_no_device (s s' : BluetoothBPService * W) (r : outcome unit)
    (t : list entry) :
  device s.1 = None -> disconnect tr s = (r, s', t) ->
  r = Returns () /\ s'.1 = _cleanup s.1.
Proof.
  intros Hd H. destruct (disconnect_cases _ _ _ _ H) as [(-> & -> & _)|(e & _ & _ & [d Hs] & _)].
  - split; reflexivity.
  - congruence.
Qed.

Lemma disconnect_silent (s : BluetoothBPService * W) :
  invocations (disconnect tr s).2 = [].
Proof.
  destruct (disconnect tr s) as [[r s'] t] eqn:H. cbn [snd].
  destruct s as [this w]. run_paths H; reflexivity.
Qed.

Lemma connect_silent (s : BluetoothBPService * W) :
  invocations (connectToDevice tr s).2 = [].
Proof.
  destruct (connectToDevice tr s) as [[r s'] t] eqn:H. cbn [snd].
  destruct s as [this w]. run_paths H; reflexivity.
Qed.

Lemma cleanup_cleared (this : BluetoothBPService) : cleared (_cleanup this).
Proof. repeat split. Qed.
End Disconnect.

(** ** Decode failures *)

(** C5 as the specification states it fails on its second half: the
    handler has no [try]; on a truncated notification it throws the
    [RangeError] to whoever dispatched the event, and the listener
    registered for measurements is not told anything. *)
Lemma short_buffer_escapes_handler :
  tooShort buffer_truncated
  /\ (_handleMeasurement (scripted smooth) buffer_truncated
        (addEventListener "measurement" listenerA (connectedService ∅), true)).1.1
     = Throws outOfBounds
  /\ (_handleMeasurement (scripted smooth) buffer_truncated
        (addEventListener "measurement" listenerA (connectedService ∅), true)).1.1
     <> Returns ()
  /\ (_handleMeasurement (scripted smooth) buffer_truncated
        (addEventListener "measurement" listenerA (connectedService ∅), true)).2
     = [].
Proof.
  split; [vm_compute; lia|]. split; [reflexivity|].
  split; [discriminate | reflexivity].
Qed.

(** C5, amended.  On a buffer shorter than its flags byte demands (or
    empty) [_parseMeasurement] throws a [RangeError] and returns no
    measurement; [_handleMeasurement] does not catch it: the error leaves
    the handler, nothing is logged, no listener is invoked, and the service
    and the outside state are as before. *)
Theorem short_buffer_throws {W : Type} (tr : Transport W) (value : DataView)
    (s : BluetoothBPService * W) :
  tooShort value ->
  (forall now : Z, _parseMeasurement now value = Throws outOfBounds)
  /\ _handleMeasurement tr value s = (Throws outOfBounds, s, []).
Proof.
  intros Hshort. split.
  - intros now. apply parseMeasurement_short, Hshort.
  - unfold _handleMeasurement, bind, readWorld, liftOutcome. cbn [fst snd].
    rewrite parseMeasurement_short by exact Hshort. reflexivity.
Qed.

Lemma short_buffer_throws_witness :
  tooShort buffer_truncated
  /\ _handleMeasurement (scripted smooth) buffer_truncated (constructor, false)
     = (Throws outOfBounds, (constructor, false), []).
Proof.
  split; [vm_compute; lia|].
  apply (short_buffer_throws (scripted smooth) buffer_truncated).
  vm_compute; lia.
Defined.

(** ** Disconnection events *)




(** ** Service discovery *)


(** The fallback of the unit test: the standard lookup rejects, the vendor
    lookup resolves, and the connect succeeds on the vendor service. *)
Example connect_falls_back :
  connectToDevice
    (scripted (mkScript false false false true false false false false false []))
    (constructor, false)
  = (Returns (mkInfo "Test BP Monitor" "test-device-id" true),
     (mkService (Some testDevice) (Some (ServerHandle 0)) (Some (ServiceHandle 1))
        (Some testCharacteristic) ∅, true),
     [Call RequestDevice None; Call AddDisconnectListener None;
      Call GattConnect None; Console LogLevel "Connected to GATT Server";
      Call (GetPrimaryService BP_SERVICE_UUID) (Some (Error "Service not found"));
      Console LogLevel "Standard BP service not found, trying Omron custom service";
      Call (GetPrimaryService OMRON_CUSTOM_SERVICE_UUID) None;
      Console LogLevel "Using Omron custom service";
      Call (GetCharacteristic BP_MEASUREMENT_UUID) None;
      Call AddValueListener None; Call StartNotifications None;
      Console LogLevel "Started BP measurement notifications";
      Call (GetCharacteristic BP_FEATURE_UUID)
        (Some (Error "Characteristic not found"));
      Console LogLevel "BP Feature characteristic not available"]).
Proof. reflexivity. Qed.

(** ** Dispatch *)


(** The isolation test: the first listener throws, the second is still
    invoked with the same payload. *)
Example listener_error_isolated :
  let data := MeasurementData testMeasurement in
  let this :=
    fold_left applyOp
      [Subscribe "measurement" listenerA; Subscribe "measurement" listenerB]
      constructor in
  _notifyListeners
    (scripted (mkScript false false false false false false false false false
                 [listenerA]))
    "measurement" data (this, false)
  = (Returns (), (this, false),
     [Invoked listenerA data;
      Console ErrorLevel "Error in measurement listener:";
      Invoked listenerB data]).
Proof. reflexivity. Qed.

(** ** Disconnecting *)

(** C9 as the specification states it fails when the GATT disconnect
    request itself rejects: [disconnect()] throws that error before
    [_cleanup] and the service keeps its device, which still reports a
    connection. *)
Lemma disconnect_failure_keeps_state :
  let tr :=
    scripted (mkScript false false false false false false false false true []) in
  disconnect tr (connectedService ∅, true)
  = (Throws (Error "Disconnect failed"), (connectedService ∅, true),
     [Call StopNotifications None;
      Call GattDisconnect (Some (Error "Disconnect failed"))])
  /\ device (connectedService ∅) <> None
  /\ isConnected tr (connectedService ∅, true) = true.
Proof. repeat split. discriminate. Qed.

(** C9, amended.  [disconnect()] on a service that holds no device does not
    throw.  Whenever [disconnect()] returns, also after a failed
    [stopNotifications], the four references are null, [isConnected()] is
    false, and a second [disconnect()] returns without touching the
    transport or the state.  [disconnect()] throws only when the GATT
    disconnect request rejects, with that error, and it then leaves the
    service object as it was. *)
Theorem disconnect_idempotent {W : Type} (tr : Transport W)
    (s s' : BluetoothBPService * W) (r : outcome unit) (t : list entry) :
  disconnect tr s = (r, s', t) ->
  (device s.1 = None -> r = Returns ())
  /\ (r = Returns () ->
      cleared s'.1 /\ isConnected tr s' = false
      /\ disconnect tr s' = (Returns (), s', []))
  /\ ((forall e, In (Call GattDisconnect (Some e)) t -> False) -> r = Returns ())
  /\ (forall e, r = Throws e ->
        In (Call GattDisconnect (Some e)) t /\ s'.1 = s.1).
Proof.
  intros H. split; [|split; [|split]].
  - intros Hd. exact (proj1 (disconnect_no_device tr _ _ _ _ Hd H)).
  - intros ->. destruct (disconnect_cases tr _ _ _ _ H)
      as [(_ & Hs & _)|(e & He & _)]; [|discriminate He].
    destruct s' as [this' w']. cbn [fst] in *. subst this'.
    split; [apply cleanup_cleared|]. split; [reflexivity|].
    apply disconnect_cleared_noop, cleanup_cleared.
  - intros Hno. destruct (disconnect_cases tr _ _ _ _ H)
      as [(Hr & _)|(e & _ & _ & _ & Hin)]; [exact Hr|].
    destruct (Hno e Hin).
  - intros e ->. destruct (disconnect_cases tr _ _ _ _ H)
      as [(Hr & _)|(e' & He & Hs & _ & Hin)]; [discriminate Hr|].
    injection He as <-. split; assumption.
Qed.

Lemma disconnect_idempotent_witness :
  let tr :=
    scripted (mkScript false false false false false false false true false []) in
  disconnect tr (connectedService ∅, true)
  = (Returns (), (constructor, false),
     [Call StopNotifications (Some (Error "Failed to stop"));
      Console WarnLevel "Error stopping notifications:";
      Call GattDisconnect None; Console LogLevel "Disconnected from device"])
  /\ cleared constructor
  /\ disconnect tr (constructor, false) = (Returns (), (constructor, false), []).
Proof.
  intros tr.
  assert (H : disconnect tr (connectedService ∅, true)
              = (Returns (), (constructor, false),
                 [Call StopNotifications (Some (Error "Failed to stop"));
                  Console WarnLevel "Error stopping notifications:";
                  Call GattDisconnect None;
                  Console LogLevel "Disconnected from device"]))
    by reflexivity.
  split; [exact H|].
  destruct (disconnect_idempotent tr _ _ _ _ H) as (_ & Hret & _).
  destruct (Hret eq_refl) as (Hc & _ & Hagain).
  split; [exact Hc | exact Hagain].
Defined.

(** ** Failed connects *)

(** C10.  If [connectToDevice()] throws after the support check, the four
    references are null and [isConnected()] is false, whatever the service
    held before and whichever step failed; a rejection of the device
    request, of the GATT connect, of the vendor service lookup, of the
    measurement characteristic lookup or of [startNotifications] is the
    error the caller gets.  Without Web Bluetooth the call throws before
    anything is touched. *)
Theorem connect_failure_resets {W : Type} (tr : Transport W)
    (s s' : BluetoothBPService * W) (r : outcome DeviceInfo) (t : list entry) :
  connectToDevice tr s = (r, s', t) ->
  (forall e, r = Throws e -> hasBluetooth tr s.2 = true ->
     cleared s'.1 /\ isConnected tr s' = false
     /\ listeners s'.1 = listeners s.1)
  /\ (forall c e, fatalStage c -> In (Call c (Some e)) t -> r = Throws e)
  /\ (hasBluetooth tr s.2 = false ->
      r = Throws notSupported /\ s' = s /\ t = []).
Proof.
  intros H. split; [|split].
  - intros e -> Hsup. exact (connect_throws_cleared tr s s' e t Hsup H).
  - intros c e Hc Hin. exact (connect_stage_rethrown tr s s' r t c e H Hc Hin).
  - intros Hsup. rewrite (connect_unsupported tr s Hsup) in H.
    injection H as <- <- <-. repeat split.
Qed.

Lemma connect_failure_resets_witness :
  let tr :=
    scripted (mkScript false false false true true false false false false []) in
  connectToDevice tr (connectedService ∅, true)
  = (Throws (Error "Service not found"), (constructor, true),
     [Call RequestDevice None; Call AddDisconnectListener None;
      Call GattConnect None; Console LogLevel "Connected to GATT Server";
      Call (GetPrimaryService BP_SERVICE_UUID) (Some (Error "Service not found"));
      Console LogLevel "Standard BP service not found, trying Omron custom service";
      Call (GetPrimaryService OMRON_CUSTOM_SERVICE_UUID)
        (Some (Error "Service not found"));
      Console ErrorLevel "Connection failed:"])
  /\ cleared constructor
  /\ isConnected tr (constructor, true) = false.
Proof.
  intros tr.
  assert (H : connectToDevice tr (connectedService ∅, true)
              = (Throws (Error "Service not found"), (constructor, true),
                 [Call RequestDevice None; Call AddDisconnectListener None;
                  Call GattConnect None;
                  Console LogLevel "Connected to GATT Server";
                  Call (GetPrimaryService BP_SERVICE_UUID)
                    (Some (Error "Service not found"));
                  Console LogLevel
                    "Standard BP service not found, trying Omron custom service";
                  Call (GetPrimaryService OMRON_CUSTOM_SERVICE_UUID)
                    (Some (Error "Service not found"));
                  Console ErrorLevel "Connection failed:"]))
    by reflexivity.
  split; [exact H|].
  destruct (connect_failure_resets tr _ _ _ _ H) as (Hreset & _).
  destruct (Hreset _ eq_refl eq_refl) as (Hc & Hi & _).
  split; [exact Hc | exact Hi].
Defined.

(** * Properties of the further code *)

(** ** Decoder bounds *)

Lemma lookup_two (dv : DataView) (off : nat) :
  (off + 2 <= length dv)%nat ->
  exists lo hi, dv !! off = Some lo /\ dv !! S off = Some hi.
Proof.
  intros H.
  destruct (lookup_lt_is_Some_2 dv off) as [lo Hlo]; [lia|].
  destruct (lookup_lt_is_Some_2 dv (S off)) as [hi Hhi]; [lia|].
  eauto.
Qed.

Lemma getUint16_short (dv : DataView) (off : nat) :
  (length dv < off + 2)%nat -> getUint16 dv off = Throws outOfBounds.
Proof.
  intros H. unfold getUint16.
  destruct (dv !! off) eqn:E1; [|reflexivity].
  destruct (dv !! S off) eqn:E2; [|reflexivity].
  apply lookup_lt_Some in E2. lia.
Qed.

Lemma spec_mantissa_range (w : Z) : -2048 <= spec_mantissa w <= 2047.
Proof.
  unfold spec_mantissa. pose proof (Z.mod_pos_bound w 0x1000 ltac:(lia)).
  cbv zeta. destruct (0x0800 <=? w mod 0x1000) eqn:E;
    [apply Z.leb_le in E | apply Z.leb_gt in E]; lia.
Qed.

Lemma spec_exponent_range (w : Z) :
  0 <= w < 0x10000 -> -8 <= spec_exponent w <= 7.
Proof.
  intros Hw. unfold spec_exponent.
  assert (0 <= w / 0x1000 < 16)
    by (split; [apply Z.div_pos; lia | apply Z.div_lt_upper_bound; lia]).
  cbv zeta. destruct (0x08 <=? w / 0x1000) eqn:E;
    [apply Z.leb_le in E | apply Z.leb_gt in E]; lia.
Qed.



(** ** What the parser lets through *)

Lemma parse_returns_parsedAs (now : Z) (dataView : DataView) (fb : byte)
    (m : Measurement) :
  dataView !! 0%nat = Some fb ->
  _parseMeasurement now dataView = Returns m ->
  parsedAs now dataView fb m.
Proof.
  intros Hfb Hm.
  destruct (decide (recordLength (byteZ fb) <= length dataView)%nat) as [Hlen|Hlen].
  - destruct (parseMeasurement_parsedAs now dataView fb Hfb Hlen) as [m' Hm'].
    pose proof (pa_cursor _ _ _ _ Hm') as Hc.
    rewrite parseMeasurement_cursor, Hc in Hm. injection Hm as <-. exact Hm'.
  - rewrite parseMeasurement_short in Hm; [discriminate|].
    destruct dataView as [|b dv]; [exact I|]. injection Hfb as ->.
    unfold tooShort. lia.
Qed.

Lemma Math_round_rounded (n : jsnum) : roundedNumber (Math_round n).
Proof.
  destruct n as [ | | |q]; unfold roundedNumber, Math_round; eauto 6.
Qed.

(** X2. [heartRate], when present, is NaN, an infinity or an integer, and
    so are the three pressures of a kPa reading.  The reserved SFLOAT code
    (null) comes out as 0 for the pulse and for a kPa pressure; in a mmHg
    reading a pressure is null exactly when its SFLOAT is that code. *)
Theorem parsed_values_rounded (now : Z) (dataView : DataView) (fb : byte)
    (m : Measurement) :
  dataView !! 0%nat = Some fb ->
  _parseMeasurement now dataView = Returns m ->
  (forall h, heartRate m = Some h -> roundedNumber h)
  /\ (Z.testbit (byteZ fb) 2 = true ->
      _parseSFLOAT dataView (pulseOffset (byteZ fb)) = Returns JNull ->
      heartRate m = Some (jsint 0))
  /\ (Z.testbit (byteZ fb) 0 = true ->
      (exists s d p,
          systolic m = JNumber s /\ diastolic m = JNumber d
          /\ meanArterialPressure m = JNumber p
          /\ roundedNumber s /\ roundedNumber d /\ roundedNumber p)
      /\ (_parseSFLOAT dataView 1 = Returns JNull -> systolic m = reading 0)
      /\ (_parseSFLOAT dataView 3 = Returns JNull -> diastolic m = reading 0)
      /\ (_parseSFLOAT dataView 5 = Returns JNull ->
          meanArterialPressure m = reading 0))
  /\ (Z.testbit (byteZ fb) 0 = false ->
      (systolic m = JNull <-> _parseSFLOAT dataView 1 = Returns JNull)
      /\ (diastolic m = JNull <-> _parseSFLOAT dataView 3 = Returns JNull)
      /\ (meanArterialPressure m = JNull
          <-> _parseSFLOAT dataView 5 = Returns JNull)).
Proof.
  intros Hfb Hm.
  destruct (parse_returns_parsedAs now dataView fb m Hfb Hm)
    as [_ _ _ Hhr _ _ (s & d & p & Hs & Hd & Hp & Es & Ed & Ep) _ _ Hh _ _].
  split; [|split; [|split]].
  - intros h Hsome.
    assert (B2 : Z.testbit (byteZ fb) 2 = true)
      by (apply Hhr; rewrite Hsome; eauto).
    destruct (Hh B2) as (pulse & _ & Heq). rewrite Hsome in Heq.
    injection Heq as ->. apply Math_round_rounded.
  - intros B2 Hnull. destruct (Hh B2) as (pulse & Hp' & Heq).
    rewrite Hnull in Hp'. injection Hp' as <-. exact Heq.
  - intros B0. rewrite B0 in Es, Ed, Ep. unfold convertPressure in Es, Ed, Ep.
    split; [|split; [|split]].
    + eexists _, _, _. repeat split; try eassumption; apply Math_round_rounded.
    + intros H. rewrite H in Hs. injection Hs as <-. exact Es.
    + intros H. rewrite H in Hd. injection Hd as <-. exact Ed.
    + intros H. rewrite H in Hp. injection Hp as <-. exact Ep.
  - intros B0. rewrite B0 in Es, Ed, Ep. unfold convertPressure in Es, Ed, Ep.
    rewrite Es, Ed, Ep, Hs, Hd, Hp.
    repeat split; intros H; congruence.
Qed.

Lemma parsed_values_rounded_witness :
  buffer_kPa_pulse !! 0%nat = Some x05
  /\ _parseMeasurement 0 buffer_kPa_pulse
     = Returns (mkMeasurement (reading 120) (reading 80) (reading 93) "kPa" 0
                  None (Some (jsint 70)) None None)
  /\ roundedNumber (jsint 70).
Proof.
  split; [reflexivity|]. split; [reflexivity|].
  apply (proj1 (parsed_values_rounded 0 buffer_kPa_pulse x05 _ eq_refl eq_refl)).
  reflexivity.
Defined.

Lemma hasBits_low5 (b : byte) :
  hasBits (byteZ b) 0x01 = hasBits (Z.land (byteZ b) 0x1F) 0x01
  /\ hasBits (byteZ b) 0x02 = hasBits (Z.land (byteZ b) 0x1F) 0x02
  /\ hasBits (byteZ b) 0x04 = hasBits (Z.land (byteZ b) 0x1F) 0x04
  /\ hasBits (byteZ b) 0x08 = hasBits (Z.land (byteZ b) 0x1F) 0x08
  /\ hasBits (byteZ b) 0x10 = hasBits (Z.land (byteZ b) 0x1F) 0x10.
Proof. destruct b; vm_compute; repeat split. Qed.

(** X3. The parser looks at bits 0 to 4 of the flags byte only, and at no
    byte past the record: two buffers that differ in bits 5 to 7 of the
    flags byte parse alike (same measurement or same failure), and bytes
    appended to a buffer that parses do not change the result. *)
Theorem parser_ignores_reserved_bits_and_tail (now : Z) (fb fb' : byte)
    (rest extra : DataView) :
  Z.land (byteZ fb) 0x1F = Z.land (byteZ fb') 0x1F ->
  _parseMeasurement now (fb :: rest) = _parseMeasurement now (fb' :: rest)
  /\ (forall m, _parseMeasurement now (fb :: rest) = Returns m ->
        _parseMeasurement now (fb :: rest ++ extra) = Returns m).
Proof.
  intros Hbits. split.
  - unfold _parseMeasurement, parseMeasurementCursor.
    rewrite !getUint8_head, !bind_returns. cbv beta.
    destruct (hasBits_low5 fb) as (-> & -> & -> & -> & ->).
    destruct (hasBits_low5 fb') as (-> & -> & -> & -> & ->).
    rewrite Hbits.
    destruct (hasBits (Z.land (byteZ fb') 0x1F) 0x02),
      (hasBits (Z.land (byteZ fb') 0x1F) 0x04),
      (hasBits (Z.land (byteZ fb') 0x1F) 0x08),
      (hasBits (Z.land (byteZ fb') 0x1F) 0x10);
      do 18 (destruct rest as [|? rest]; [reflexivity|]); reflexivity.
  - intros m Hm.
    pose proof (parse_returns_parsedAs now (fb :: rest) fb m eq_refl Hm) as Hp.
    assert (Hlen : (recordLength (byteZ fb) <= length (fb :: rest))%nat).
    { destruct (decide (recordLength (byteZ fb) <= length (fb :: rest))%nat)
        as [H|H]; [exact H|].
      rewrite parseMeasurement_short in Hm; [discriminate|].
      unfold tooShort. lia. }
    destruct (parseMeasurement_parsedAs now (fb :: rest ++ extra) fb eq_refl)
      as [m' Hm'].
    { simpl in *. rewrite length_app. lia. }
    pose proof (pa_exact _ _ _ _ Hp) as E1.
    pose proof (pa_exact _ _ _ _ Hm') as E2.
    change (fb :: rest ++ extra) with ((fb :: rest) ++ extra) in E2.
    rewrite take_app_le in E2 by exact Hlen.
    rewrite E1 in E2. injection E2 as <-.
    rewrite parseMeasurement_cursor, (pa_cursor _ _ _ _ Hm'). reflexivity.
Qed.

Lemma parser_ignores_reserved_bits_and_tail_witness :
  Z.land (byteZ x04) 0x1F = Z.land (byteZ xe4) 0x1F
  /\ _parseMeasurement 0 (xe4 :: tail buffer_pulse)
     = _parseMeasurement 0 buffer_pulse.
Proof.
  split; [reflexivity|].
  symmetry.
  apply (proj1 (parser_ignores_reserved_bits_and_tail 0 x04 xe4
                  (tail buffer_pulse) [] eq_refl)).
Defined.

(** ** Bitmaps *)

Lemma land_pow2 (f i : Z) :
  0 <= i -> Z.land f (2 ^ i) = if Z.testbit f i then 2 ^ i else 0.
Proof.
  intros Hi. apply Z.bits_inj'. intros n Hn.
  rewrite Z.land_spec, Z.pow2_bits_eqb by exact Hi.
  destruct (Z.eqb_spec i n) as [->|Hne].
  - destruct (Z.testbit f n); [|now rewrite Z.bits_0].
    now rewrite Z.pow2_bits_true.
  - rewrite andb_false_r.
    destruct (Z.testbit f i); [|now rewrite Z.bits_0].
    rewrite Z.pow2_bits_false by lia. reflexivity.
Qed.

Lemma hasBits_pow2 (f i : Z) : 0 <= i -> hasBits f (2 ^ i) = Z.testbit f i.
Proof.
  intros Hi. unfold hasBits. rewrite land_pow2 by exact Hi.
  destruct (Z.testbit f i); [apply Z.eqb_refl|].
  apply Z.eqb_neq. pose proof (Z.pow_pos_nonneg 2 i). lia.
Qed.

Lemma parseMeasurementStatus_bits (f : Z) :
  _parseMeasurementStatus f =
  mkStatus (Z.testbit f 0) (Z.testbit f 1) (Z.testbit f 2) (Z.testbit f 3)
    (Z.testbit f 4).
Proof.
  unfold _parseMeasurementStatus.
  change 0x01 with (2 ^ 0). change 0x02 with (2 ^ 1). change 0x04 with (2 ^ 2).
  change 0x08 with (2 ^ 3). change 0x10 with (2 ^ 4).
  rewrite !hasBits_pow2 by lia. reflexivity.
Qed.

Lemma testbit_low5 (f i : Z) :
  0 <= i < 5 -> Z.testbit (Z.land f 0x1F) i = Z.testbit f i.
Proof.
  intros Hi. rewrite Z.land_spec. change 0x1F with (Z.ones 5).
  rewrite Z.ones_spec_low by lia. apply andb_true_r.
Qed.

Lemma status_messages_count (st : MeasurementStatus) :
  length (parseMeasurementStatus (Some st)) =
  (Nat.b2n (bodyMovementDetected st) + Nat.b2n (cuffFitError st)
   + Nat.b2n (irregularPulseDetected st) + Nat.b2n (pulseRateOutOfRange st)
   + Nat.b2n (measurementPositionImproper st))%nat.
Proof. destruct st as [[] [] [] [] []]; reflexivity. Qed.

(** X4. Each field of a decoded measurement status is one bit of the
    bitmap, bit 0 for body movement up to bit 4 for improper position; bits
    5 and above change nothing; and the user-facing message list built from
    the decoded status has one message per bit set among those five. *)
Theorem measurementStatus_reads_bits (statusFlags : Z) :
  _parseMeasurementStatus statusFlags =
    mkStatus (Z.testbit statusFlags 0) (Z.testbit statusFlags 1)
      (Z.testbit statusFlags 2) (Z.testbit statusFlags 3)
      (Z.testbit statusFlags 4)
  /\ _parseMeasurementStatus (Z.land statusFlags 0x1F)
     = _parseMeasurementStatus statusFlags
  /\ length (parseMeasurementStatus (Some (_parseMeasurementStatus statusFlags)))
     = lowFiveSet statusFlags.
Proof.
  split; [apply parseMeasurementStatus_bits|]. split.
  - rewrite !parseMeasurementStatus_bits, !testbit_low5 by lia. reflexivity.
  - rewrite status_messages_count, parseMeasurementStatus_bits.
    unfold lowFiveSet. cbn [bodyMovementDetected cuffFitError
      irregularPulseDetected pulseRateOutOfRange measurementPositionImproper].
    destruct (Z.testbit statusFlags 0) eqn:B0, (Z.testbit statusFlags 1) eqn:B1,
      (Z.testbit statusFlags 2) eqn:B2, (Z.testbit statusFlags 3) eqn:B3,
      (Z.testbit statusFlags 4) eqn:B4;
      cbn [filter list_filter]; rewrite ?B0, ?B1, ?B2, ?B3, ?B4; reflexivity.
Qed.

(** X5. The message list of a status has one entry per flag set; a message
    of type "error" is there exactly when the cuff fit flag is set, every
    other message being a warning; the list is empty exactly when no flag
    is set, and a missing status gives no message. *)
Theorem status_messages_by_flag (st : MeasurementStatus) :
  length (parseMeasurementStatus (Some st)) =
    (Nat.b2n (bodyMovementDetected st) + Nat.b2n (cuffFitError st)
     + Nat.b2n (irregularPulseDetected st) + Nat.b2n (pulseRateOutOfRange st)
     + Nat.b2n (measurementPositionImproper st))%nat
  /\ ((exists msg, In msg (parseMeasurementStatus (Some st))
                   /\ messageType msg = "error")
      <-> cuffFitError st = true)
  /\ (forall msg, In msg (parseMeasurementStatus (Some st)) ->
        messageType msg = "error" \/ messageType msg = "warning")
  /\ (parseMeasurementStatus (Some st) = []
      <-> st = mkStatus false false false false false)
  /\ parseMeasurementStatus None = [].
Proof.
  split; [apply status_messages_count|].
  split; [|split; [|split; [|reflexivity]]].
  - destruct st as [[] [] [] [] []]; split;
      try (intros _; reflexivity);
      try (intros H; discriminate H);
      try (intros _;
           exists (mkMessage "error"
                     "Cuff fit error - please adjust cuff and retry");
           split; [cbn; tauto | reflexivity]);
      intros (msg & Hin & Hty); cbn in Hin; exfalso;
      repeat (destruct Hin as [<-|Hin]; [discriminate Hty|]); exact Hin.
  - intros msg Hin. destruct st as [[] [] [] [] []]; cbn in Hin;
      repeat (destruct Hin as [<-|Hin]; [auto|]); contradiction.
  - destruct st as [[] [] [] [] []]; split; intros H;
      try discriminate H; reflexivity.
Qed.

Lemma status_messages_by_flag_witness :
  exists msg,
    In msg (parseMeasurementStatus (Some (mkStatus false true false false false)))
    /\ messageType msg = "error".
Proof.
  apply (proj2 (proj1 (proj2 (status_messages_by_flag
                                (mkStatus false true false false false))))).
  reflexivity.
Defined.

(** ** The feature bitmap *)

(** X6. Decoding the feature bitmap throws a [RangeError] on a value of
    fewer than two bytes; otherwise each of the seven features is one bit,
    0 to 6, of the little-endian word in the first two bytes, and nothing
    after those two bytes is read. *)
Theorem parseFeatures_reads_bits (dataView : DataView) :
  ((length dataView < 2)%nat -> _parseFeatures dataView = Throws outOfBounds)
  /\ (forall lo hi rest, dataView = lo :: hi :: rest ->
        _parseFeatures dataView =
        Returns
          (let w := word16 lo hi in
           mkFeatures (Z.testbit w 0) (Z.testbit w 1) (Z.testbit w 2)
             (Z.testbit w 3) (Z.testbit w 4) (Z.testbit w 5) (Z.testbit w 6))).
Proof.
  split.
  - intros H. unfold _parseFeatures.
    rewrite getUint16_short by (simpl; lia). reflexivity.
  - intros lo hi rest ->. unfold _parseFeatures.
    rewrite (getUint16_word _ _ lo hi) by reflexivity.
    rewrite bind_returns. unfold mret, outcome_ret. f_equal. cbv zeta.
    change 0x01 with (2 ^ 0). change 0x02 with (2 ^ 1). change 0x04 with (2 ^ 2).
    change 0x08 with (2 ^ 3). change 0x10 with (2 ^ 4). change 0x20 with (2 ^ 5).
    change 0x40 with (2 ^ 6).
    rewrite !hasBits_pow2 by lia. reflexivity.
Qed.

Lemma parseFeatures_reads_bits_witness :
  _parseFeatures [x05; x00; xff] =
  Returns (mkFeatures true false true false false false false).
Proof.
  exact (proj2 (parseFeatures_reads_bits [x05; x00; xff]) x05 x00 [xff] eq_refl).
Defined.

(** ** Connection lifecycle *)

Lemma parseMeasurement_timestamp (now : Z) (dataView : DataView)
    (m : Measurement) :
  _parseMeasurement now dataView = Returns m -> timestamp m = now.
Proof.
  unfold _parseMeasurement, parseMeasurementCursor. intros H.
  cbv [mbind outcome_bind mret outcome_ret] in H.
  repeat next_case H; simplify_eq; reflexivity.
Qed.

(** One of the calls whose rejection [connectToDevice] rethrows. *)
Ltac find_stage :=
  first
    [ exists RequestDevice; split; [unfold fatalStage; tauto | cbn [In]; tauto]
    | exists GattConnect; split; [unfold fatalStage; tauto | cbn [In]; tauto]
    | exists (GetPrimaryService OMRON_CUSTOM_SERVICE_UUID);
      split; [unfold fatalStage; tauto | cbn [In]; tauto]
    | exists (GetCharacteristic BP_MEASUREMENT_UUID);
      split; [unfold fatalStage; tauto | cbn [In]; tauto]
    | exists StartNotifications;
      split; [unfold fatalStage; tauto | cbn [In]; tauto] ].

Section LifecycleExtras.
Context {W : Type} (tr : Transport W).

Lemma handleDisconnection_run (s : BluetoothBPService * W) :
  exists w' t,
    _handleDisconnection tr s = (Returns (), (_cleanup s.1, w'), t).
Proof.
  destruct s as [this w].
  destruct (notifyListeners_dispatch tr "disconnected" (DisconnectedData true)
              (_cleanup this) w) as (w' & results & Hrun & _).
  eexists w', _. unfold _handleDisconnection, bind, console, emit, modify.
  cbn [fst snd]. rewrite Hrun. reflexivity.
Qed.


(** X8. [_startNotifications] leaves the service object as it was.  It asks
    the transport to subscribe only when a measurement characteristic is
    held and that characteristic indicates or notifies, and it attaches the
    value listener before that request; it returns exactly when the request
    resolved, and rethrows its rejection.  Without a usable characteristic
    it throws before touching the transport. *)
Theorem startNotifications_outcomes (s s' : BluetoothBPService * W)
    (r : outcome unit) (t : list entry) :
  _startNotifications tr s = (r, s', t) ->
  s'.1 = s.1
  /\ (r = Returns () <-> In (Call StartNotifications None) t)
  /\ (forall e, In (Call StartNotifications e) t ->
        (exists c, measurementCharacteristic s.1 = Some c
                   /\ propIndicate c || propNotify c = true)
        /\ (exists t', t = Call AddValueListener None
                           :: Call StartNotifications e :: t')
        /\ r = match e with None => Returns () | Some err => Throws err end)
  /\ (measurementCharacteristic s.1 = None ->
      r = Throws (Error "Measurement characteristic not available") /\ t = [])
  /\ (forall c, measurementCharacteristic s.1 = Some c ->
        propIndicate c || propNotify c = false ->
        r = Throws (Error "Device does not support notifications/indications")
        /\ t = []).
Proof.
  destruct s as [this w]. intros H.
  run_paths H; cbn [fst snd measurementCharacteristic In];
    (split; [reflexivity|]);
    (split; [split; [intros Hr; first [discriminate Hr | tauto]
                    |intros Hin; absurd_entry Hin;
                     first [contradiction | reflexivity]]
            |]);
    (split;
       [ intros ? Hin; absurd_entry Hin;
         first
           [ contradiction
           | simplify_eq;
             (split; [eexists; split; [reflexivity | assumption]|]);
             (split; [eexists; reflexivity | reflexivity]) ]
       | ]);
    (split; [intros Hn; first [discriminate Hn | split; reflexivity]|]);
    intros ? Hc Hp; simplify_eq;
    first [ congruence | split; reflexivity ].
Qed.

(** X9. When [connectToDevice()] returns, the service holds a device, a
    server, a service and a measurement characteristic, the characteristic
    indicates or notifies, and the subscription was made; the call began
    with the device request, the disconnect listener and the GATT connect,
    in that order.  The returned info carries the device's name (or
    'Unknown Device') and id with [connected: true]; [getDeviceInfo()]
    afterwards gives the same name and id, with the link state the
    transport reports at that moment. *)
Theorem connect_success_state (s s' : BluetoothBPService * W)
    (info : DeviceInfo) (t : list entry) :
  connectToDevice tr s = (Returns info, s', t) ->
  exists d srv svc c t',
    s'.1 = mkService (Some d) (Some srv) (Some svc) (Some c) (listeners s.1)
    /\ info = mkInfo (nameOrUnknown (deviceName d)) (deviceId d) true
    /\ propIndicate c || propNotify c = true
    /\ t = Call RequestDevice None :: Call AddDisconnectListener None
           :: Call GattConnect None :: t'
    /\ In (Call (GetCharacteristic BP_MEASUREMENT_UUID) None) t'
    /\ In (Call StartNotifications None) t'
    /\ getDeviceInfo tr s' =
       Some (mkInfo (infoName info) (infoId info) (isConnected tr s')).
Proof.
  destruct s as [this w]. intros H.
  run_paths H; cbn [fst snd];
    eexists _, _, _, _, _;
    (split; [reflexivity|]); (split; [reflexivity|]);
    (split; [eassumption|]); (split; [reflexivity|]);
    (split; [cbn [In]; tauto|]); (split; [cbn [In]; tauto|]);
    reflexivity.
Qed.



(** X12. [disconnect()] talks to the transport only over a live link: when
    the transport reports no device connected, the call makes no transport
    call and logs nothing, returns, and clears the references.  The only
    transport calls it ever makes are [stopNotifications], made only when a
    characteristic is held whose device reports connected, and the GATT
    disconnect, made only when a device is held; a rejected
    [stopNotifications] is logged as a warning. *)
Theorem disconnect_link_gated (s : BluetoothBPService * W) :
  ((forall d, gattConnected tr d s.2 = false) ->
   disconnect tr s = (Returns (), (_cleanup s.1, s.2), []))
  /\ (forall c r, In (Call c r) (disconnect tr s).2 ->
        (c = StopNotifications
         /\ (exists ch, measurementCharacteristic s.1 = Some ch
                        /\ gattConnected tr (charDevice ch) s.2 = true)
         /\ (is_Some r ->
             In (Console WarnLevel "Error stopping notifications:")
               (disconnect tr s).2))
        \/ (c = GattDisconnect /\ is_Some (device s.1))).
Proof.
  split.
  - intros Hdown. destruct s as [[d sv sc c l] w]. cbn [fst snd] in *.
    unfold disconnect, bind, getThis, readWorld, modify, ret.
    cbn [fst snd measurementCharacteristic device].
    destruct c as [c|], d as [d|]; cbn [fst snd device];
      rewrite ?Hdown; cbn [fst snd device]; rewrite ?Hdown; reflexivity.
  - intros c r. destruct (disconnect tr s) as [[r0 s'] t] eqn:H. cbn [fst snd].
    destruct s as [this w]. intros Hin.
    run_paths H; cbn [In] in Hin; absurd_entry Hin;
      first
        [ contradiction
        | simplify_eq; cbn [fst snd device measurementCharacteristic];
          first
            [ left; split; [reflexivity|];
              split; [eexists; split; [reflexivity | assumption]|];
              intros [? Hr]; first [discriminate Hr | cbn [In]; tauto]
            | right; split; [reflexivity | eexists; reflexivity] ] ].
Qed.

(** X13. After an unsolicited disconnection the service is back in its
    initial condition: the references are null, [isConnected()] is false,
    [getDeviceInfo()] is null, and a following [disconnect()] returns
    without a transport call, a console line or a change of state. *)
Theorem handleDisconnection_then_disconnect (s : BluetoothBPService * W) :
  let s1 := (_handleDisconnection tr s).1.2 in
  (_handleDisconnection tr s).1.1 = Returns ()
  /\ cleared s1.1
  /\ isConnected tr s1 = false
  /\ getDeviceInfo tr s1 = None
  /\ disconnect tr s1 = (Returns (), s1, []).
Proof.
  destruct (handleDisconnection_run s) as (w' & t & ->). cbn [fst snd].
  split; [reflexivity|]. split; [apply cleanup_cleared|].
  split; [reflexivity|]. split; [reflexivity|].
  apply disconnect_cleared_noop, cleanup_cleared.
Qed.


End LifecycleExtras.


Lemma startNotifications_outcomes_witness :
  _startNotifications (scripted smooth) (connectedService ∅, true)
  = (Returns (), (connectedService ∅, true),
     [Call AddValueListener None; Call StartNotifications None;
      Console LogLevel "Started BP measurement notifications"]).
Proof.
  destruct (startNotifications_outcomes (scripted smooth)
              (connectedService ∅, true) _ _ _ eq_refl) as (_ & _ & Hin & _).
  destruct (Hin None) as (_ & _ & _); [cbn; tauto|]. reflexivity.
Defined.

Lemma connect_success_state_witness :
  getDeviceInfo (scripted smooth)
    (connectToDevice (scripted smooth) (constructor, false)).1.2
  = Some (mkInfo "Test BP Monitor" "test-device-id" true).
Proof.
  destruct (connect_success_state (scripted smooth) (constructor, false)
              _ _ _ eq_refl)
    as (d & srv & svc & c & t' & _ & _ & _ & _ & _ & _ & Hinfo).
  exact Hinfo.
Defined.


Lemma disconnect_link_gated_witness :
  disconnect (scripted smooth) (connectedService ∅, false)
  = (Returns (), (constructor, false), []).
Proof.
  apply (proj1 (disconnect_link_gated (scripted smooth)
                  (connectedService ∅, false))).
  reflexivity.
Defined.



(** ** The listener registry *)

Lemma setAdd_NoDup (cb : callback) (s : list callback) :
  NoDup s -> NoDup (setAdd cb s).
Proof.
  intros Hs. unfold setAdd. destruct (decide (cb ∈ s)) as [Hin|Hin]; [exact Hs|].
  apply NoDup_app. split; [exact Hs|]. split; [|apply NoDup_singleton].
  intros x Hx Hx'. apply list_elem_of_singleton in Hx'. subst. contradiction.
Qed.

Lemma setDelete_NoDup (cb : callback) (s : list callback) :
  NoDup s -> NoDup (setDelete cb s).
Proof. intros Hs. unfold setDelete. apply NoDup_filter, Hs. Qed.

Lemma registered_NoDup (event : string) (ops : list hubOp) (acc : list callback) :
  NoDup acc -> NoDup (registered event ops acc).
Proof.
  revert acc. induction ops as [|[ev cb|ev cb] ops IH]; intros acc Hacc;
    cbn [registered]; [exact Hacc| |]; apply IH;
    destruct (decide (ev = event));
    auto using setAdd_NoDup, setDelete_NoDup.
Qed.

Lemma setDelete_fresh (cb : callback) (s : list callback) :
  cb ∉ s -> setDelete cb s = s.
Proof.
  intros Hn. unfold setDelete. induction s as [|x s IH]; [reflexivity|].
  rewrite filter_cons. destruct (decide (x ≠ cb)) as [Hx|Hx].
  - f_equal. apply IH. intros Hin. apply Hn. right. exact Hin.
  - exfalso. apply Hn. apply dec_stable in Hx. subst. left.
Qed.

Lemma map_pair_NoDup (data : payload) (s : list callback) :
  NoDup s -> NoDup (map (λ cb, (cb, data)) s).
Proof.
  induction 1 as [|x s Hx Hs IH]; cbn [map]; constructor; [|exact IH].
  intros Hin. apply Hx. apply list_elem_of_In in Hin.
  apply in_map_iff in Hin as (y & Heq & Hy). injection Heq as ->.
  apply list_elem_of_In. exact Hy.
Qed.

(** X15. A callback is held at most once per event: from a new service, no
    sequence of [addEventListener] and [removeEventListener] calls leaves a
    callback twice in the list of an event, so an emission invokes no
    callback twice; a new service has no listener at all, and emitting an
    event that has no listener does nothing. *)
Theorem hub_callbacks_unique {W : Type} (tr : Transport W) (ops : list hubOp)
    (event : string) (data : payload) (w : W) :
  let this := fold_left applyOp ops constructor in
  subscribersOf event constructor = []
  /\ NoDup (subscribersOf event this)
  /\ NoDup (invocations (_notifyListeners tr event data (this, w)).2)
  /\ (forall that : BluetoothBPService,
        subscribersOf event that = [] ->
        _notifyListeners tr event data (that, w) = (Returns (), (that, w), [])).
Proof.
  intros this.
  assert (Hnd : NoDup (subscribersOf event this)).
  { unfold this. rewrite subscribersOf_ops. apply registered_NoDup.
    apply NoDup_nil_2. }
  split; [reflexivity|]. split; [exact Hnd|]. split.
  - rewrite notifyListeners_run. cbn [snd].
    rewrite invocations_deliveries by apply runAll_length.
    apply map_pair_NoDup, Hnd.
  - intros that Hnone. rewrite notifyListeners_run, Hnone. reflexivity.
Qed.

(** X16. [removeEventListener(event, callback)] takes the callback out of
    that event's list and changes nothing else: every other callback of the
    event stays, in the same order, and the lists of other events are the
    same; removing a callback that is not registered changes no list.  An
    emission of the event after the removal does not invoke the callback. *)
Theorem unsubscribe_effective {W : Type} (tr : Transport W) (ev : string)
    (cb : callback) (this : BluetoothBPService) :
  let that := removeEventListener ev cb this in
  (cb ∉ subscribersOf ev that)
  /\ subscribersOf ev that = filter (λ c, c ≠ cb) (subscribersOf ev this)
  /\ (forall event, event ≠ ev -> subscribersOf event that = subscribersOf event this)
  /\ (cb ∉ subscribersOf ev this ->
      forall event, subscribersOf event that = subscribersOf event this)
  /\ (forall (data data' : payload) (w : W),
        ~ In (cb, data') (invocations (_notifyListeners tr ev data (that, w)).2)).
Proof.
  intros that.
  assert (Hev : subscribersOf ev that = setDelete cb (subscribersOf ev this)).
  { unfold that. rewrite subscribersOf_remove.
    destruct (decide (ev = ev)); [reflexivity | contradiction]. }
  assert (Hnot : cb ∉ subscribersOf ev that).
  { rewrite Hev. unfold setDelete. intros Hin.
    apply list_elem_of_filter in Hin as [Hne _]. apply Hne. reflexivity. }
  split; [exact Hnot|]. split; [exact Hev|]. split; [|split].
  - intros event Hne. unfold that. rewrite subscribersOf_remove.
    destruct (decide (ev = event)); [congruence | reflexivity].
  - intros Hfresh event. unfold that. rewrite subscribersOf_remove.
    destruct (decide (ev = event)) as [<-|]; [|reflexivity].
    apply setDelete_fresh, Hfresh.
  - intros data data' w Hin. rewrite notifyListeners_run in Hin. cbn [snd] in Hin.
    rewrite invocations_deliveries in Hin by apply runAll_length.
    apply in_map_iff in Hin as (cb' & Heq & Hin). injection Heq as -> _.
    apply Hnot. apply list_elem_of_In. exact Hin.
Qed.

(** X17. [addEventListener(event, callback)] registers the callback for that
    event only: it is in the event's list afterwards, behind the callbacks
    already there, whose order is kept; the lists of other events are the
    same.  Registering a registered callback again changes nothing, and
    removing a callback right after registering it for the first time gives
    back the lists there were. *)
Theorem subscribe_idempotent (ev : string) (cb : callback)
    (this : BluetoothBPService) :
  let that := addEventListener ev cb this in
  (cb ∈ subscribersOf ev that)
  /\ subscribersOf ev this `prefix_of` subscribersOf ev that
  /\ (forall event, event ≠ ev -> subscribersOf event that = subscribersOf event this)
  /\ addEventListener ev cb that = that
  /\ (cb ∉ subscribersOf ev this ->
      forall event,
        subscribersOf event (removeEventListener ev cb that)
        = subscribersOf event this).
Proof.
  intros that.
  assert (Hev : subscribersOf ev that = setAdd cb (subscribersOf ev this)).
  { unfold that. rewrite subscribersOf_add.
    destruct (decide (ev = ev)); [reflexivity | contradiction]. }
  assert (Hin : cb ∈ subscribersOf ev that).
  { rewrite Hev. unfold setAdd.
    destruct (decide (cb ∈ subscribersOf ev this)); [assumption|].
    apply elem_of_app. right. apply list_elem_of_singleton. reflexivity. }
  split; [exact Hin|]. split; [|split; [|split]].
  - rewrite Hev. unfold setAdd.
    destruct (decide (cb ∈ subscribersOf ev this)); [reflexivity|].
    apply prefix_app_r. reflexivity.
  - intros event Hne. unfold that. rewrite subscribersOf_add.
    destruct (decide (ev = event)); [congruence | reflexivity].
  - clear Hev. clearbody that. unfold subscribersOf in Hin.
    unfold addEventListener. cbv zeta.
    destruct (listeners that !! ev) as [s|] eqn:Hs.
    + cbn [default from_option id] in Hin.
      destruct (decide (is_Some (Some s))) as [_|Hn]; [|exfalso; apply Hn; eauto].
      rewrite Hs. cbn [default from_option id]. unfold setAdd.
      destruct (decide (cb ∈ s)) as [_|Hn]; [|contradiction].
      unfold withListeners. rewrite insert_id by exact Hs.
      destruct that; reflexivity.
    + cbn [default from_option id] in Hin. apply elem_of_nil in Hin. contradiction.
  - intros Hfresh event. rewrite subscribersOf_remove.
    destruct (decide (ev = event)) as [<-|Hne].
    + rewrite Hev. unfold setAdd.
      destruct (decide (cb ∈ subscribersOf ev this)); [contradiction|].
      unfold setDelete. rewrite filter_app, filter_cons, filter_nil.
      destruct (decide (cb ≠ cb)) as [Hc|_]; [contradiction|].
      rewrite app_nil_r. apply setDelete_fresh. assumption.
    + unfold that. rewrite subscribersOf_add.
      destruct (decide (ev = event)); [congruence | reflexivity].
Qed.

Lemma hub_callbacks_unique_witness :
  _notifyListeners (scripted smooth) "measurement"
    (MeasurementData testMeasurement) (constructor, false)
  = (Returns (), (constructor, false), []).
Proof.
  destruct (hub_callbacks_unique (scripted smooth) [] "measurement"
              (MeasurementData testMeasurement) false) as (_ & _ & _ & Hnone).
  apply Hnone. reflexivity.
Defined.

Lemma unsubscribe_effective_witness :
  subscribersOf "measurement"
    (removeEventListener "measurement" listenerB
       (addEventListener "measurement" listenerA constructor))
  = [listenerA].
Proof.
  destruct (unsubscribe_effective (scripted smooth) "measurement" listenerB
              (addEventListener "measurement" listenerA constructor))
    as (_ & _ & _ & Hfresh & _).
  rewrite Hfresh; [reflexivity|].
  intros Hin. vm_compute in Hin. inversion Hin as [|? ? ? Hin']; subst.
  inversion Hin'.
Defined.

Lemma subscribe_idempotent_witness :
  subscribersOf "measurement"
    (removeEventListener "measurement" listenerA
       (addEventListener "measurement" listenerA constructor))
  = [].
Proof.
  destruct (subscribe_idempotent "measurement" listenerA constructor)
    as (_ & _ & _ & _ & Hfresh).
  rewrite Hfresh; [reflexivity|].
  intros Hin. vm_compute in Hin. inversion Hin.
Defined.

(** ** Stage grades *)

Lemma js_ge_trans (a b c : jsnum) :
  js_ge a b = true -> js_ge b c = true -> js_ge a c = true.
Proof.
  destruct a as [| | |x], b as [| | |y], c as [| | |z]; cbn [js_ge];
    try discriminate; try reflexivity.
  rewrite !Qle_bool_iff. intros H1 H2. exact (Qle_trans _ _ _ H2 H1).
Qed.

Lemma geLit_le (v v' : jsval) (k : Z) :
  leVal v v' = true -> geLit v k = true -> geLit v' k = true.
Proof. unfold leVal, geLit. intros H1 H2. exact (js_ge_trans _ _ _ H1 H2). Qed.

Lemma ltLit_geLit (v : jsval) (k : Z) :
  notNaN v -> ltLit v k = negb (geLit v k).
Proof.
  unfold notNaN, ltLit, geLit, jsint.
  destruct (toNumber v) as [| | |q]; intros H; cbn [js_lt js_ge];
    [contradiction|reflexivity|reflexivity|reflexivity].
Qed.

Lemma geLit_NaN (v : jsval) (k : Z) :
  toNumber v = JNaN -> geLit v k = false /\ ltLit v k = false.
Proof. unfold geLit, ltLit. intros ->. split; reflexivity. Qed.

Lemma systolicGrade_mono (s s' : jsval) :
  leVal s s' = true -> (systolicGrade s <= systolicGrade s')%nat.
Proof.
  intros H. unfold systolicGrade.
  destruct (geLit s 180) eqn:E4; [rewrite (geLit_le _ _ _ H E4); lia|].
  destruct (geLit s 140) eqn:E3;
    [rewrite (geLit_le _ _ _ H E3); destruct (geLit s' 180); lia|].
  destruct (geLit s 130) eqn:E2;
    [rewrite (geLit_le _ _ _ H E2);
     destruct (geLit s' 180), (geLit s' 140); lia|].
  destruct (geLit s 120) eqn:E1;
    [rewrite (geLit_le _ _ _ H E1);
     destruct (geLit s' 180), (geLit s' 140), (geLit s' 130); lia|].
  lia.
Qed.

Lemma diastolicGrade_mono (d d' : jsval) :
  leVal d d' = true -> (diastolicGrade d <= diastolicGrade d')%nat.
Proof.
  intros H. unfold diastolicGrade.
  destruct (geLit d 120) eqn:E4; [rewrite (geLit_le _ _ _ H E4); lia|].
  destruct (geLit d 90) eqn:E3;
    [rewrite (geLit_le _ _ _ H E3); destruct (geLit d' 120); lia|].
  destruct (geLit d 80) eqn:E2;
    [rewrite (geLit_le _ _ _ H E2);
     destruct (geLit d' 120), (geLit d' 90); lia|].
  lia.
Qed.

Lemma status_grade (s d : jsval) :
  notNaN d ->
  severity (calculateHTNStatus s d)
  = Nat.max (systolicGrade s) (diastolicGrade d).
Proof.
  intros Hd. unfold calculateHTNStatus, systolicGrade, diastolicGrade.
  rewrite (ltLit_geLit d 80 Hd).
  destruct (geLit s 180) eqn:S4.
  { destruct (geLit d 120), (geLit d 90), (geLit d 80); reflexivity. }
  destruct (geLit d 120) eqn:D4.
  { destruct (geLit s 140), (geLit s 130), (geLit s 120); reflexivity. }
  destruct (geLit s 140) eqn:S3.
  { destruct (geLit d 90), (geLit d 80); reflexivity. }
  destruct (geLit d 90) eqn:D3.
  { destruct (geLit s 130), (geLit s 120); reflexivity. }
  destruct (geLit s 130) eqn:S2.
  { destruct (geLit d 80); reflexivity. }
  destruct (geLit d 80) eqn:D2.
  { destruct (geLit s 120); reflexivity. }
  destruct (geLit s 120); reflexivity.
Qed.

Lemma leVal_notNaN (a b : jsval) : leVal a b = true -> notNaN a /\ notNaN b.
Proof.
  unfold leVal, notNaN.
  destruct (toNumber a), (toNumber b); cbn [js_ge]; intros H;
    split; congruence.
Qed.

(** X18. The stage is always one of the five labels.  With a diastolic
    value that is not NaN, it is the worse of the grades the two pressures
    reach on their own: systolic 120, 130, 140, 180 and diastolic 80, 90,
    120 are the steps, and Elevated is the grade of systolic 120 to 129
    when the diastolic grade is none. *)
Theorem status_is_worse_grade (systolic diastolic : jsval) :
  In (calculateHTNStatus systolic diastolic)
    ["Normal"; "Elevated"; "Stage 1"; "Stage 2"; "Crisis"]
  /\ (notNaN diastolic ->
      severity (calculateHTNStatus systolic diastolic)
      = Nat.max (systolicGrade systolic) (diastolicGrade diastolic)).
Proof.
  split.
  - unfold calculateHTNStatus.
    destruct (geLit systolic 180 || geLit diastolic 120); [cbn; tauto|].
    destruct (geLit systolic 140 || geLit diastolic 90); [cbn; tauto|].
    destruct (geLit systolic 130 || geLit diastolic 80); [cbn; tauto|].
    destruct (geLit systolic 120 && ltLit diastolic 80); cbn; tauto.
  - apply status_grade.
Qed.

Lemma status_is_worse_grade_witness :
  severity (calculateHTNStatus (reading 125) (reading 95)) = 3%nat.
Proof.
  rewrite (proj2 (status_is_worse_grade (reading 125) (reading 95)));
    [reflexivity|].
  unfold notNaN. discriminate.
Defined.

(** X19. Raising either pressure never lowers the stage: when the second
    reading is at least the first in both pressures, its stage is at least
    as severe. *)
Theorem status_monotone (s d s' d' : jsval) :
  leVal s s' = true -> leVal d d' = true ->
  (severity (calculateHTNStatus s d) <= severity (calculateHTNStatus s' d'))%nat.
Proof.
  intros Hs Hd. destruct (leVal_notNaN _ _ Hd) as [Hn Hn'].
  rewrite !status_grade by assumption.
  pose proof (systolicGrade_mono _ _ Hs). pose proof (diastolicGrade_mono _ _ Hd).
  lia.
Qed.

Lemma status_monotone_witness :
  (severity (calculateHTNStatus (reading 125) (reading 75))
   <= severity (calculateHTNStatus (reading 125) (reading 80)))%nat.
Proof.
  apply (status_monotone (reading 125) (reading 75) (reading 125) (reading 80));
    reflexivity.
Defined.

(** X20. With a NaN diastolic value only the systolic column counts, and
    its Elevated band is lost: the stage is Crisis, Stage 2 or Stage 1 by
    the systolic thresholds and Normal below 130, never Elevated.  A
    [null] diastolic value counts as 0. *)
Theorem status_nan_diastolic (systolic diastolic : jsval) :
  toNumber diastolic = JNaN ->
  calculateHTNStatus systolic diastolic
  = (if geLit systolic 180 then "Crisis"
     else if geLit systolic 140 then "Stage 2"
     else if geLit systolic 130 then "Stage 1" else "Normal")
  /\ calculateHTNStatus systolic diastolic <> "Elevated"
  /\ calculateHTNStatus systolic JNull
     = calculateHTNStatus systolic (JNumber (jsint 0)).
Proof.
  intros Hd. unfold calculateHTNStatus.
  rewrite !(proj1 (geLit_NaN diastolic _ Hd)), (proj2 (geLit_NaN diastolic _ Hd)).
  rewrite !orb_false_r, andb_false_r.
  split; [reflexivity|]. split; [|reflexivity].
  destruct (geLit systolic 180), (geLit systolic 140), (geLit systolic 130);
    discriminate.
Qed.

Lemma status_nan_diastolic_witness :
  calculateHTNStatus (reading 125) (JNumber JNaN) = "Normal".
Proof.
  rewrite (proj1 (status_nan_diastolic (reading 125) (JNumber JNaN) eq_refl)).
  reflexivity.
Defined.

(** ** Reading validation *)

(** The result of [validateBPReading], check by check. *)
Lemma validate_closed (s d : jsval) (heartRate : option jsval) :
  validateBPReading s d heartRate =
  let errors :=
    (if negb (truthy s) || isNaN s then ["Systolic pressure is required"]
     else if ltLit s 70 || gtLit s 300
          then ["Systolic pressure must be between 70-300 mmHg"] else [])
    ++ (if negb (truthy d) || isNaN d then ["Diastolic pressure is required"]
        else if ltLit d 40 || gtLit d 200
             then ["Diastolic pressure must be between 40-200 mmHg"] else [])
    ++ (if truthy s && truthy d && negb (isNaN s) && negb (isNaN d)
        then if leVal s d
             then ["Systolic pressure must be greater than diastolic pressure"]
             else []
        else [])
    ++ match default JNull heartRate with
       | JNull => []
       | JNumber n =>
           if isNaN (JNumber n) then ["Heart rate must be a number"]
           else if ltLit (JNumber n) 30 || gtLit (JNumber n) 250
                then ["Heart rate must be between 30-250 bpm"] else []
       end in
  mkValidation (bool_decide (length errors = 0%nat)) errors.
Proof.
  cbv beta delta [validateBPReading pushIf].
  destruct (negb (truthy s) || isNaN s), (ltLit s 70 || gtLit s 300),
    (negb (truthy d) || isNaN d), (ltLit d 40 || gtLit d 200),
    (truthy s && truthy d && negb (isNaN s) && negb (isNaN d)), (leVal s d);
    cbv beta iota zeta;
    destruct heartRate as [[|n]|]; cbn [default from_option id];
    try reflexivity;
    destruct (isNaN (JNumber n)), (ltLit (JNumber n) 30 || gtLit (JNumber n) 250);
    reflexivity.
Qed.

Lemma range_atoms (q : Q) (lo hi : Z) :
  ltLit (JNumber (JFin q)) lo || gtLit (JNumber (JFin q)) hi = false
  <-> (inject_Z lo <= q)%Q /\ (q <= inject_Z hi)%Q.
Proof.
  unfold ltLit, gtLit, jsint. cbn [toNumber js_lt].
  rewrite orb_false_iff, !negb_false_iff, !Qle_bool_iff. reflexivity.
Qed.

Lemma truthy_above (q : Q) (lo : Z) :
  0 < lo -> (inject_Z lo <= q)%Q -> truthy (JNumber (JFin q)) = true.
Proof.
  intros Hlo Hq. cbn [truthy]. apply negb_true_iff.
  destruct (Qeq_bool q 0) eqn:E; [|reflexivity].
  apply Qeq_bool_iff in E. rewrite E in Hq.
  change 0%Q with (inject_Z 0) in Hq. rewrite <- Zle_Qle in Hq. lia.
Qed.

(** A required pressure: present, a number, and within its range. *)
Lemma required_check (v : jsval) (lo hi : Z) (missing range : string) :
  0 < lo ->
  (if negb (truthy v) || isNaN v then [missing]
   else if ltLit v lo || gtLit v hi then [range] else []) = []
  <-> finiteWithin lo hi v.
Proof.
  intros Hlo. split.
  - destruct v as [|[| | |q]]; cbn [truthy isNaN toNumber negb orb];
      try discriminate.
    destruct (negb (Qeq_bool q 0)); cbn [negb orb]; [|discriminate].
    destruct (ltLit (JNumber (JFin q)) lo || gtLit (JNumber (JFin q)) hi) eqn:E;
      [discriminate|].
    intros _. apply range_atoms in E. exists q. tauto.
  - intros (q & -> & Hq1 & Hq2).
    rewrite (truthy_above q lo Hlo Hq1). cbn [isNaN toNumber negb orb].
    rewrite (proj2 (range_atoms q lo hi)) by tauto. reflexivity.
Qed.

(** An optional number: a number, and within its range. *)
Lemma optional_check (n : jsnum) (lo hi : Z) (nan range : string) :
  (if isNaN (JNumber n) then [nan]
   else if ltLit (JNumber n) lo || gtLit (JNumber n) hi then [range] else []) = []
  <-> finiteWithin lo hi (JNumber n).
Proof.
  split.
  - destruct n as [| | |q]; cbn [isNaN toNumber]; try discriminate.
    destruct (ltLit (JNumber (JFin q)) lo || gtLit (JNumber (JFin q)) hi) eqn:E;
      [discriminate|].
    intros _. apply range_atoms in E. exists q. tauto.
  - intros (q & Hq & Hq1 & Hq2). injection Hq as ->. cbn [isNaN toNumber].
    rewrite (proj2 (range_atoms q lo hi)) by tauto. reflexivity.
Qed.

Lemma finiteWithin_present (v : jsval) (lo hi : Z) :
  0 < lo -> finiteWithin lo hi v -> truthy v = true /\ isNaN v = false.
Proof.
  intros Hlo (q & -> & Hq & _). split; [exact (truthy_above q lo Hlo Hq)|].
  reflexivity.
Qed.

(** X21. [validateBPReading] accepts a reading exactly when the systolic
    value is a finite number from 70 to 300, the diastolic value a finite
    number from 40 to 200, the systolic is not less than or equal to the
    diastolic, and the heart rate is omitted, [null], or a finite number
    from 30 to 250.  A [null], zero, NaN or infinite pressure is never
    accepted. *)
Theorem validateBPReading_accepts (systolic diastolic : jsval)
    (heartRate : option jsval) :
  isValid (validateBPReading systolic diastolic heartRate) = true
  <-> finiteWithin 70 300 systolic
      /\ finiteWithin 40 200 diastolic
      /\ leVal systolic diastolic = false
      /\ match heartRate with
         | None | Some JNull => True
         | Some v => finiteWithin 30 250 v
         end.
Proof.
  rewrite validate_closed. cbv zeta. cbn [isValid].
  rewrite bool_decide_eq_true, length_zero_iff_nil, !app_nil.
  rewrite (required_check systolic 70 300) by lia.
  rewrite (required_check diastolic 40 200) by lia.
  split.
  - intros (Hs & Hd & Hrel & Hhr).
    destruct (finiteWithin_present systolic 70 300 ltac:(lia) Hs) as [Ts Ns].
    destruct (finiteWithin_present diastolic 40 200 ltac:(lia) Hd) as [Td Nd].
    rewrite Ts, Td, Ns, Nd in Hrel. cbn [negb andb] in Hrel.
    split; [exact Hs|]. split; [exact Hd|]. split.
    + destruct (leVal systolic diastolic); [discriminate Hrel | reflexivity].
    + destruct heartRate as [[|n]|]; cbn [default from_option id] in Hhr;
        [exact I| |exact I].
      apply optional_check in Hhr. exact Hhr.
  - intros (Hs & Hd & Hrel & Hhr).
    split; [exact Hs|]. split; [exact Hd|]. split.
    + rewrite Hrel. destruct (_ && _); reflexivity.
    + destruct heartRate as [[|n]|]; cbn [default from_option id];
        [reflexivity| |reflexivity].
      apply optional_check. exact Hhr.
Qed.

Lemma validateBPReading_accepts_witness :
  isValid (validateBPReading (reading 120) (reading 80) (Some (reading 70)))
  = true.
Proof.
  apply validateBPReading_accepts.
  split; [exists (inject_Z 120); split; [reflexivity|]; split; vm_compute; discriminate|].
  split; [exists (inject_Z 80); split; [reflexivity|]; split; vm_compute; discriminate|].
  split; [reflexivity|].
  exists (inject_Z 70). split; [reflexivity|]. split; vm_compute; discriminate.
Defined.

(** X22. [isValid] is true exactly when no error is listed, and at most
    four errors are listed, at most one per check.  With a systolic value
    that is [null], zero or NaN the first error is the one asking for it,
    and the comparison of systolic with diastolic is skipped. *)
Theorem validateBPReading_errors (systolic diastolic : jsval)
    (heartRate : option jsval) :
  let v := validateBPReading systolic diastolic heartRate in
  (isValid v = true <-> errors v = [])
  /\ (length (errors v) <= 4)%nat
  /\ (truthy systolic = false \/ isNaN systolic = true ->
      head (errors v) = Some "Systolic pressure is required"
      /\ ~ In "Systolic pressure must be greater than diastolic pressure"
           (errors v)).
Proof.
  intros v. unfold v. rewrite validate_closed. cbv zeta. cbn [isValid errors].
  split; [|split].
  - rewrite bool_decide_eq_true. apply length_zero_iff_nil.
  - rewrite !length_app.
    destruct (negb (truthy systolic) || isNaN systolic),
      (ltLit systolic 70 || gtLit systolic 300),
      (negb (truthy diastolic) || isNaN diastolic),
      (ltLit diastolic 40 || gtLit diastolic 200),
      (truthy systolic && truthy diastolic && negb (isNaN systolic)
       && negb (isNaN diastolic)),
      (leVal systolic diastolic);
      (destruct (default JNull heartRate) as [|n];
       [|destruct (isNaN (JNumber n)),
           (ltLit (JNumber n) 30 || gtLit (JNumber n) 250)]);
      cbn [length]; lia.
  - intros Hmissing.
    assert (Hc : negb (truthy systolic) || isNaN systolic = true).
    { destruct Hmissing as [-> | ->]; [reflexivity | apply orb_true_r]. }
    assert (Hg : truthy systolic && truthy diastolic && negb (isNaN systolic)
                 && negb (isNaN diastolic) = false).
    { destruct Hmissing as [-> | ->]; [reflexivity|].
      destruct (truthy systolic), (truthy diastolic); reflexivity. }
    rewrite Hc, Hg. split; [reflexivity|].
    rewrite !in_app_iff.
    destruct (negb (truthy diastolic) || isNaN diastolic),
      (ltLit diastolic 40 || gtLit diastolic 200);
      (destruct (default JNull heartRate) as [|n];
       [|destruct (isNaN (JNumber n)),
           (ltLit (JNumber n) 30 || gtLit (JNumber n) 250)]);
      cbn [In]; intros Hin; decompose [or] Hin; try discriminate; assumption.
Qed.

Lemma validateBPReading_errors_witness :
  head (errors (validateBPReading JNull (reading 80) None))
  = Some "Systolic pressure is required".
Proof.
  destruct (validateBPReading_errors JNull (reading 80) None) as (_ & _ & H).
  apply H. left. reflexivity.
Defined.

(** ** Browser compatibility *)

(** X23. [checkBrowserCompatibility] reports [canUseBluetooth] exactly when
    its message is the one announcing support, and exactly when
    [navigator] has [bluetooth], the page is served over [https:] or from
    [localhost], and the platform is not iOS.  On iOS the message is the
    iOS one whatever else holds; the browser flags play no part. *)
Theorem compatibility_message_agrees (env : BrowserEnv) :
  let c := checkBrowserCompatibility env in
  (canUseBluetooth c = true <-> compatMessage c = readyMessage)
  /\ (canUseBluetooth c = true <->
      bluetoothInNavigator env = true
      /\ (protocol env = "https:" \/ hostname env = "localhost")
      /\ compatIOS c = false)
  /\ (compatIOS c = true ->
      canUseBluetooth c = false
      /\ compatMessage c =
         "Web Bluetooth is not supported on iOS. Please use the Bluefy browser app or manual entry.")
  /\ (forall env' : BrowserEnv,
        bluetoothInNavigator env' = bluetoothInNavigator env ->
        protocol env' = protocol env -> hostname env' = hostname env ->
        agentIsApplePhone env' = agentIsApplePhone env ->
        hasMSStream env' = hasMSStream env ->
        canUseBluetooth (checkBrowserCompatibility env') = canUseBluetooth c
        /\ compatMessage (checkBrowserCompatibility env') = compatMessage c).
Proof.
  intros c. unfold c, checkBrowserCompatibility, getCompatibilityMessage, readyMessage.
  cbn [canUseBluetooth compatMessage compatIOS].
  split; [|split; [|split]].
  - destruct (bluetoothInNavigator env),
      (bool_decide (protocol env = "https:") || bool_decide (hostname env = "localhost")),
      (agentIsApplePhone env && negb (hasMSStream env));
      cbn [negb andb]; split; intros H; first [reflexivity | discriminate H].
  - rewrite !andb_true_iff, orb_true_iff, !bool_decide_eq_true, negb_true_iff.
    tauto.
  - intros ->. split; [|reflexivity].
    rewrite andb_false_r. reflexivity.
  - intros env' -> -> -> -> ->. split; reflexivity.
Qed.

Lemma compatibility_message_agrees_witness :
  let env :=
    mkBrowserEnv true "http:" "localhost" false false true true false false
      true false in
  compatMessage (checkBrowserCompatibility env) = readyMessage.
Proof.
  intros env.
  destruct (compatibility_message_agrees env) as (Hmsg & _).
  apply Hmsg. reflexivity.
Defined.

(** ** Measurement history *)

Lemma take_app_take {A} (n m : nat) (l k : list A) :
  (n <= m)%nat -> take n (l ++ take m k) = take n (l ++ k).
Proof.
  revert n. induction l as [|x l IH]; intros n Hn; cbn [app].
  - rewrite take_take. f_equal. lia.
  - destruct n as [|n]; [reflexivity|]. cbn [take]. f_equal.
    apply IH. lia.
Qed.

Lemma historyAfter_closed {A} (arrivals history : list A) :
  historyAfter arrivals history =
  match arrivals with
  | [] => history
  | _ => take 10 (rev arrivals ++ history)
  end.
Proof.
  unfold historyAfter. revert history.
  induction arrivals as [|x xs IH]; intros history; [reflexivity|].
  cbn [fold_left]. rewrite IH. unfold pushHistory.
  destruct xs as [|y ys]; [reflexivity|].
  rewrite take_app_take by lia. cbn [rev]. rewrite <- !app_assoc. reflexivity.
Qed.

(** X24. The history update puts the new measurement first and keeps the
    nine most recent of the others.  After any number of measurements the
    history is the ten most recent, newest first (together with what is
    left of the earlier history), so it never holds more than ten once a
    measurement has arrived, and a history of at most ten never grows
    beyond ten. *)
Theorem history_keeps_ten_newest {A : Type} (arrivals history : list A)
    (x : A) :
  pushHistory x history = x :: take 9 history
  /\ historyAfter (arrivals ++ [x]) history
     = take 10 (x :: rev arrivals ++ history)
  /\ historyAfter (arrivals ++ [x]) [] = take 10 (x :: rev arrivals)
  /\ (length (historyAfter (arrivals ++ [x]) history) <= 10)%nat
  /\ ((length history <= 10)%nat ->
      (length (historyAfter arrivals history) <= 10)%nat).
Proof.
  assert (Hclosed : historyAfter (arrivals ++ [x]) history
                    = take 10 (x :: rev arrivals ++ history)).
  { rewrite historyAfter_closed.
    destruct (arrivals ++ [x]) eqn:E; [destruct arrivals; discriminate E|].
    rewrite <- E, rev_app_distr. reflexivity. }
  split; [reflexivity|]. split; [exact Hclosed|]. split; [|split].
  - rewrite historyAfter_closed.
    destruct (arrivals ++ [x]) eqn:E; [destruct arrivals; discriminate E|].
    rewrite <- E, rev_app_distr, app_nil_r. reflexivity.
  - rewrite Hclosed, length_take. lia.
  - intros Hlen. rewrite historyAfter_closed.
    destruct arrivals; [exact Hlen|]. rewrite length_take. lia.
Qed.

Lemma history_keeps_ten_newest_witness :
  historyAfter [1; 2; 3; 4; 5; 6; 7; 8; 9; 10; 11; 12]%nat [0%nat]
  = [12; 11; 10; 9; 8; 7; 6; 5; 4; 3]%nat.
Proof.
  exact (proj1 (proj2 (history_keeps_ten_newest
                         [1; 2; 3; 4; 5; 6; 7; 8; 9; 10; 11]%nat [0%nat] 12%nat))).
Defined.
